(** * Project vault: access control and record management

    A shallow embedding of the project service of the university project
    vault (the zustand store, [createProject], [addProject],
    [getAllProjects], [getAllProjectsAdmin], [getProjectById] and
    [updateProject]) together with the declarations of
    [src/lib/blockchain.ts] it imports.

    Conventions of the embedding:
    - a JavaScript [number] that holds an identifier, a year or a time stamp
      is a [Z], and the sum the service computes on identifiers is rounded
      as the language rounds it ([Number_add]); a value returned by
      [Math.random()] is a rational [Q];
    - a JavaScript [string] is a [string]; an argument or field that may be
      [null] or [undefined] is an [option];
    - the store, the random source, the clock and the console are the fields
      of one [World], threaded through the code by a state monad;
    - the collaborators whose modules are not part of the core
      ([getStudentByWallet], [generateProjectSummary], the formatting of a
      number in base 16) are variables of the section that holds the
      service. *)

From Stdlib Require Import String Ascii ZArith QArith Qround List Bool Lia.
From Stdlib Require Import DecimalString.
From ExtLib Require Import Structures.Monad Structures.MonadState.
From ExtLib Require Import Data.Monads.StateMonad.
Import ListNotations.
Import MonadNotation.
Local Open Scope monad_scope.
Local Open Scope string_scope.
Local Open Scope Z_scope.

(* ===================================================================== *)
(** ** JavaScript values *)
(* ===================================================================== *)

(** Truthiness of a string: every string but the empty one. *)
Definition truthy (s : string) : bool :=
  match s with
  | EmptyString => false
  | String _ _ => true
  end.

(** Truthiness of a [string | null | undefined]. *)
Definition truthyOpt (v : option string) : bool :=
  match v with
  | Some s => truthy s
  | None => false
  end.

(** A parameter declared [p: string = ''] : [undefined] takes the default. *)
Definition orDefault (v : option string) (dflt : string) : string :=
  match v with
  | Some s => s
  | None => dflt
  end.

(** [s.charAt(i)]: the one-character string at index [i], the empty string
    when [i] is out of range. *)
Definition charAt (s : string) (i : Z) : string :=
  if i <? 0 then ""
  else match String.get (Z.to_nat i) s with
       | Some c => String c ""
       | None => ""
       end.

(** [arr.includes(x)] on an array of strings. *)
Definition includes (arr : list string) (x : string) : bool :=
  existsb (String.eqb x) arr.

(** [Math.floor] on a rational. *)
Definition Math_floor (x : Q) : Z := Qfloor x.

(** [Number.MAX_SAFE_INTEGER], 2^53 - 1: up to it, and to its successor,
    every integer is a number of the language. *)
Definition MAX_SAFE_INTEGER : Z := 9007199254740991.

(** The number of the language nearest to an integer, ties going to the
    even significand: a number carries 53 significant bits, so beyond 2^53
    only the multiples of a power of two remain. (Integers past the largest
    finite number are beyond what the store can hold.) *)
Definition roundToDouble (z : Z) : Z :=
  let a := Z.abs z in
  if a <=? MAX_SAFE_INTEGER + 1 then z
  else
    let e := Z.log2 a - 52 in
    let q := a / 2 ^ e in
    let r := a mod 2 ^ e in
    let half := 2 ^ (e - 1) in
    let q' := if (half <? r) || ((r =? half) && Z.odd q) then q + 1 else q in
    Z.sgn z * (q' * 2 ^ e).

(** [a + b] on two numbers that hold integers: the exact sum, rounded. *)
Definition Number_add (a b : Z) : Z := roundToDouble (a + b).

(** How a promise, or a call that may throw, ends. *)
Inductive Settled (A : Type) : Type :=
| Fulfilled (value : A)
| Rejected (reason : string).
Arguments Fulfilled {A} value.
Arguments Rejected {A} reason.

(* ===================================================================== *)
(** ** src/lib/blockchain.ts *)
(* ===================================================================== *)

(** [export enum AccessLevel { Public = 0, Restricted = 1, Private = 2 }] *)
Inductive AccessLevel : Type := Public | Restricted | Private.

(** The number an enum value is at run time. *)
Definition AccessLevel_value (a : AccessLevel) : Z :=
  match a with
  | Public => 0
  | Restricted => 1
  | Private => 2
  end.

(** The members of the object the enum declaration compiles to, by name. *)
Definition AccessLevel_members : list (string * AccessLevel) :=
  [("Public", Public); ("Restricted", Restricted); ("Private", Private)].

(** [AccessLevel.<name>]: reading a member of the enum object. A name the
    declaration does not list reads as [undefined] ([None]). *)
Fixpoint memberOf (members : list (string * AccessLevel)) (name : string)
  : option Z :=
  match members with
  | [] => None
  | (n, a) :: rest =>
      if String.eqb n name then Some (AccessLevel_value a)
      else memberOf rest name
  end.

Definition AccessLevel_dot (name : string) : option Z :=
  memberOf AccessLevel_members name.

(** [level === AccessLevel.<name>] for a [level] of the enum type: a number
    is never strictly equal to [undefined]. *)
Definition strictEqLevel (level : AccessLevel) (member : option Z) : bool :=
  match member with
  | Some n => AccessLevel_value level =? n
  | None => false
  end.

(** [interface ProjectData], with the three properties the project service
    writes and reads on top of the declared ones ([institutionId],
    [creatorAddress], [aiSummary]); the seed records carry none of them. *)
Record ProjectData : Type := mkProject {
  id : Z;
  title : string;
  authors : list string;
  uploadDate : Z;
  ipfsHash : string;
  departmentId : Z;
  year : Z;
  description : string;
  accessLevel : AccessLevel;
  institutionId : option Z;
  creatorAddress : option string;
  aiSummary : option string
}.

(** [project.aiSummary = summary] *)
Definition set_aiSummary (p : ProjectData) (summary : string) : ProjectData :=
  {| id := id p; title := title p; authors := authors p;
     uploadDate := uploadDate p; ipfsHash := ipfsHash p;
     departmentId := departmentId p; year := year p;
     description := description p; accessLevel := accessLevel p;
     institutionId := institutionId p; creatorAddress := creatorAddress p;
     aiSummary := Some summary |}.

(** A seed record: only the declared properties. *)
Definition seed (i : Z) (t : string) (a : string) (date : Z) (hash : string)
  (dept : Z) (y : Z) (d : string) (lvl : AccessLevel) : ProjectData :=
  {| id := i; title := t; authors := [a]; uploadDate := date;
     ipfsHash := hash; departmentId := dept; year := y; description := d;
     accessLevel := lvl; institutionId := None; creatorAddress := None;
     aiSummary := None |}.

(** [mockProjects]; [loadTime] is what [Date.now()] returned when the module
    was loaded. *)
Definition mockProjects (loadTime : Z) : list ProjectData :=
  [ seed 1 "Decentralized Identity Management System"
      "0x1234567890123456789012345678901234567890"
      (loadTime - 86400000 * 5)
      "QmT8TstX4ngjQwvQfS9ZnuXAT3Cmey1NefdRs5QXwXFiP7" 1 2023
      "A blockchain-based identity management system that allows users to control their personal data and share it securely with service providers."
      Public;
    seed 2 "Smart Grid Energy Distribution"
      "0x2345678901234567890123456789012345678901"
      (loadTime - 86400000 * 10)
      "QmUNLLsPACCz1vLxQVkXqqLX5R1X345qqfHbsf67hvA3Nn" 2 2023
      "An intelligent energy distribution system that uses IoT devices and blockchain to optimize energy consumption in smart buildings."
      Restricted;
    seed 3 "Blockchain-based Supply Chain Management"
      "0x3456789012345678901234567890123456789012"
      (loadTime - 86400000 * 15)
      "QmZMHCFoYMfxw7bUca4wRtmD8ubWxucJNAqjTgG5ATJLVd" 6 2023
      "A supply chain management system that uses blockchain to track products from manufacturer to consumer, ensuring authenticity and transparency."
      Public;
    seed 4 "Privacy-Preserving Machine Learning"
      "0x4567890123456789012345678901234567890123"
      (loadTime - 86400000 * 20)
      "QmSgvgwxZGMrjhpVNvKmh3mBJhgUVfhKhrSVnxKzCGNnxk" 1 2023
      "A machine learning framework that preserves data privacy by using federated learning and secure multi-party computation."
      Private;
    seed 5 "Sustainable Building Materials Analysis"
      "0x5678901234567890123456789012345678901234"
      (loadTime - 86400000 * 25)
      "QmW2WQi7j6c7UgJTarActp7tDNikE4B2qXtFCfLPdsgaTQ" 4 2023
      "Analysis of sustainable building materials and their impact on energy consumption and carbon footprint in modern construction."
      Public;
    seed 6 "Quantum Algorithm for Optimization Problems"
      "0x6789012345678901234567890123456789012345"
      (loadTime - 86400000 * 30)
      "QmTkzDwWqPbnAh5YiV5VwcTLnGdwSNsNTn2aDxdXBFca7D" 7 2023
      "A quantum computing algorithm designed to solve complex optimization problems more efficiently than classical approaches."
      Restricted ].

(** What the student directory knows of a wallet: the two properties the
    project service reads on the value [getStudentByWallet] returns. *)
Record Student : Type := mkStudent {
  studentDepartmentId : Z;
  studentInstitutionId : Z
}.

(* ===================================================================== *)
(** ** The world the service runs in *)
(* ===================================================================== *)

(** [projects] is the state of [useProjectStore]; [randoms] lists what the
    successive calls of [Math.random()] return and [drawn] counts the calls
    made so far; [now] is what [Date.now()] returns; [console] collects the
    lines written by [console.error], the latest first. *)
Record World : Type := mkWorld {
  projects : list ProjectData;
  randoms : nat -> Q;
  drawn : nat;
  now : Z;
  console : list string
}.

Definition M : Type -> Type := state World.

(** [useProjectStore.setState({ projects: ps })] *)
Definition setProjects (ps : list ProjectData) : M unit :=
  modify (fun w => {| projects := ps; randoms := randoms w;
                      drawn := drawn w; now := now w;
                      console := console w |}) ;;
  ret tt.

(** [useProjectStore.getState().getProjects()] *)
Definition Store_getProjects : M (list ProjectData) :=
  gets projects.

(** [useProjectStore.getState().addProject(project)]: the new record goes
    in front of the ones already there. *)
Definition Store_addProject (project : ProjectData) : M unit :=
  current <- get ;;
  setProjects (project :: projects current).

(** [Math.random()] *)
Definition Math_random : M Q :=
  w <- get ;;
  put {| projects := projects w; randoms := randoms w;
         drawn := S (drawn w); now := now w; console := console w |} ;;
  ret (randoms w (drawn w)).

(** [Date.now()] *)
Definition Date_now : M Z := gets now.

(** [console.error(label, error)] *)
Definition console_error (label : string) (error : string) : M unit :=
  modify (fun w => {| projects := projects w; randoms := randoms w;
                      drawn := drawn w; now := now w;
                      console := (label ++ " " ++ error) :: console w |}) ;;
  ret tt.

(** The world after [k] more calls of [Math.random()]. *)
Definition advance (k : nat) (w : World) : World :=
  {| projects := projects w; randoms := randoms w;
     drawn := (k + drawn w)%nat; now := now w; console := console w |}.

(** The store as the module creates it: the seed records, nothing drawn,
    nothing logged. *)
Definition initialWorld (rnd : nat -> Q) (loadTime : Z) : World :=
  {| projects := mockProjects loadTime; randoms := rnd; drawn := 0%nat;
     now := loadTime; console := [] |}.

(* ===================================================================== *)
(** ** src/lib/blockchain.ts: reading from the contract *)
(* ===================================================================== *)

(** [`${n}`] for an integer [n]. *)
Definition showNumber (n : Z) : string := NilZero.string_of_int (Z.to_int n).

(** [console.error(message)] *)
Definition console_error1 (message : string) : M unit :=
  modify (fun w => {| projects := projects w; randoms := randoms w;
                      drawn := drawn w; now := now w;
                      console := message :: console w |}) ;;
  ret tt.

(** The three view functions of the contract the wrappers below await;
    each call answers or fails. A number the contract returns is taken as
    the integer [Number(...)] makes of it. *)
Record Contract : Type := mkContract {
  contract_canViewProject : Z -> string -> Settled bool;
  contract_getDepartments : Z -> Settled (list Z);
  contract_getDepartmentName : Z -> Settled string
}.

(** [window.ethereum]: how the request for the accounts ends, and the
    contract deployed at [CONTRACT_ADDRESS] as a provider built on it
    reaches it. *)
Record Ethereum : Type := mkEthereum {
  eth_requestAccounts : Settled unit;
  deployed : Contract
}.

(** [interface Department] *)
Record Department : Type := mkDepartment {
  deptId : Z;
  deptName : string
}.

(** [getProvider]; the argument is [window.ethereum], [None] when no wallet
    is installed. *)
Definition getProvider (ethereum : option Ethereum) : M (Settled Ethereum) :=
  match ethereum with
  | Some eth =>
      match eth_requestAccounts eth with
      | Fulfilled _ => ret (Fulfilled eth)
      | Rejected error =>
          console_error1 "User denied account access" ;;
          ret (Rejected error)
      end
  | None =>
      ret (Rejected
             "Ethereum provider not detected. Please install MetaMask or a compatible wallet.")
  end.

Definition getContractReadOnly (ethereum : option Ethereum)
  : M (Settled Contract) :=
  provider <- getProvider ethereum ;;
  match provider with
  | Fulfilled eth => ret (Fulfilled (deployed eth))
  | Rejected error => ret (Rejected error)
  end.

Definition canViewProject (ethereum : option Ethereum) (projectId : Z)
  (address : string) : M (Settled bool) :=
  contract <- getContractReadOnly ethereum ;;
  match contract with
  | Rejected error => ret (Rejected error)
  | Fulfilled c =>
      match contract_canViewProject c projectId address with
      | Fulfilled answer => ret (Fulfilled answer)
      | Rejected error =>
          console_error
            ("Error checking view access for project "
             ++ showNumber projectId ++ ":") error ;;
          ret (Fulfilled false)
      end
  end.

(** The [for] loop of [getDepartments] on the identifiers still to visit
    and the array built so far; it stops at the first name that fails. *)
Fixpoint collectDepartments (c : Contract) (departmentIds : list Z)
  (departments : list Department) : Settled (list Department) :=
  match departmentIds with
  | [] => Fulfilled departments
  | i :: rest =>
      match contract_getDepartmentName c i with
      | Fulfilled name =>
          collectDepartments c rest (departments ++ [mkDepartment i name])
      | Rejected error => Rejected error
      end
  end.

Definition getDepartments (ethereum : option Ethereum) (institutionId : Z)
  : M (Settled (list Department)) :=
  contract <- getContractReadOnly ethereum ;;
  match contract with
  | Rejected error => ret (Rejected error)
  | Fulfilled c =>
      let attempt :=
        match contract_getDepartments c institutionId with
        | Fulfilled departmentIds => collectDepartments c departmentIds []
        | Rejected error => Rejected error
        end in
      match attempt with
      | Fulfilled departments => ret (Fulfilled departments)
      | Rejected error =>
          console_error
            ("Error getting departments for institution "
             ++ showNumber institutionId ++ ":") error ;;
          ret (Rejected error)
      end
  end.

(* ===================================================================== *)
(** ** src/components/ProjectCard/index.tsx *)
(* ===================================================================== *)

(** An index of [slice] brought into the string: a negative one counts from
    the end. *)
Definition sliceIndex (len i : Z) : Z :=
  if i <? 0 then Z.max (len + i) 0 else Z.min i len.

(** [s.slice(start, finish)]; [finish] is [None] when it is left out. *)
Definition slice (s : string) (start : Z) (finish : option Z) : string :=
  let len := Z.of_nat (String.length s) in
  let from := sliceIndex len start in
  let to := match finish with
            | Some e => sliceIndex len e
            | None => len
            end in
  substring (Z.to_nat from) (Z.to_nat (to - from)) s.

Definition truncatedDescription (description : string) : string :=
  if (150 <? String.length description)%nat
  then substring 0 150 description ++ "..."
  else description.

Definition shortenAddress (address : string) : string :=
  slice address 0 (Some 6) ++ "..." ++ slice address (-4) None.

Section ProjectCard.

(** [s.toLowerCase()] *)
Variable toLowerCase : string -> string.

(** [address && authors.some(author =>
     author.toLowerCase() === address.toLowerCase())], read as a condition;
    [address] is the wallet connected, if any. *)
Definition isOwnProject (address : option string) (authors : list string)
  : bool :=
  match address with
  | Some a =>
      truthy a
      && existsb (fun author =>
                    String.eqb (toLowerCase author) (toLowerCase a)) authors
  | None => false
  end.

(** The part of [className] of the card that depends on the record. *)
Definition cardBorder (address : option string) (project : ProjectData)
  : string :=
  if strictEqLevel (accessLevel project) (AccessLevel_dot "Private")
     && isOwnProject address (authors project)
  then "border-red-300 bg-red-50/30"
  else if strictEqLevel (accessLevel project) (AccessLevel_dot "Restricted")
          && isOwnProject address (authors project)
  then "border-amber-300 bg-amber-50/30"
  else "border-university-blue/20".

(** Whether the title carries the mark Your Project. *)
Definition yourProjectMark (address : option string) (project : ProjectData)
  : bool :=
  isOwnProject address (authors project)
  && (strictEqLevel (accessLevel project) (AccessLevel_dot "Private")
      || strictEqLevel (accessLevel project) (AccessLevel_dot "Restricted")).

End ProjectCard.

(** Lower case for the letters of ASCII, the other characters kept. *)
Definition asciiToLower (c : ascii) : ascii :=
  let n := N_of_ascii c in
  if ((65 <=? n) && (n <=? 90))%N then ascii_of_N (n + 32) else c.

Fixpoint sampleToLowerCase (s : string) : string :=
  match s with
  | EmptyString => EmptyString
  | String c rest => String (asciiToLower c) (sampleToLowerCase rest)
  end.

(** A wallet whose contract knows institution 1 with departments 10 and
    20, and fails on the name of department 30 of institution 2. *)
Definition sampleContract : Contract :=
  {| contract_canViewProject := fun projectId address =>
       if projectId =? 4 then Rejected "execution reverted"
       else Fulfilled (String.eqb address "0xAAA");
     contract_getDepartments := fun institutionId =>
       if institutionId =? 1 then Fulfilled [10; 20]
       else if institutionId =? 2 then Fulfilled [10; 30; 20]
       else Rejected "unknown institution";
     contract_getDepartmentName := fun i =>
       if i =? 10 then Fulfilled "Computer Science"
       else if i =? 20 then Fulfilled "Physics"
       else Rejected "unknown department" |}.

Definition sampleEthereum : Ethereum :=
  {| eth_requestAccounts := Fulfilled tt; deployed := sampleContract |}.

(* ===================================================================== *)
(** ** What the specification says, for comparison *)
(* ===================================================================== *)

(** The largest identifier present in a collection; [None] when it holds no
    record. *)
Fixpoint maxIdPresent (ps : list ProjectData) : option Z :=
  match ps with
  | [] => None
  | p :: rest =>
      match maxIdPresent rest with
      | None => Some (id p)
      | Some m => Some (Z.max (id p) m)
      end
  end.

(** A letter or a digit of ASCII. *)
Definition alphanumeric (c : ascii) : bool :=
  let n := N_of_ascii c in
  ((48 <=? n) && (n <=? 57) || (65 <=? n) && (n <=? 90)
   || (97 <=? n) && (n <=? 122))%N.

(** Two records that agree on every property but the summary. *)
Definition sameButSummary (p q : ProjectData) : Prop :=
  id p = id q /\ title p = title q /\ authors p = authors q /\
  uploadDate p = uploadDate q /\ ipfsHash p = ipfsHash q /\
  departmentId p = departmentId q /\ year p = year q /\
  description p = description q /\ accessLevel p = accessLevel q /\
  institutionId p = institutionId q /\ creatorAddress p = creatorAddress q.

(** The record a lookup by identifier designates: the first one of the
    collection that carries the identifier. *)
Definition designated (ps : list ProjectData) (r : ProjectData) : Prop :=
  find (fun project => id project =? id r) ps = Some r.

(* ===================================================================== *)
(** ** Sample data *)
(* ===================================================================== *)

(** A directory with two students of institution 1 and one of
    institution 2. *)
Definition sampleDirectory (wallet : string) : option Student :=
  if String.eqb wallet "0xAAA" then Some (mkStudent 3 1)
  else if String.eqb wallet "0xBBB" then Some (mkStudent 4 1)
  else if String.eqb wallet "0xCCC" then Some (mkStudent 5 2)
  else None.

(** A summarizer that answers, one that answers nothing and one that
    fails. *)
Definition summarizerOk (_ : ProjectData) : Settled (option string) :=
  Fulfilled (Some "A short summary.").

Definition summarizerSilent (_ : ProjectData) : Settled (option string) :=
  Fulfilled None.

Definition summarizerDown (_ : ProjectData) : Settled (option string) :=
  Rejected "503".

(** A formatter of numbers in base 16 that always prints the same digits. *)
Definition sampleToString16 (_ : Q) : string := "0.8f3a2b1c4d5e6".

(** A random source that cycles through sixty-two values of [0, 1). *)
Definition sampleRandoms (n : nat) : Q :=
  Qmake (Z.of_nat (n mod 62)) 62.

Definition emptyWorld : World :=
  {| projects := []; randoms := sampleRandoms; drawn := 0%nat;
     now := 1700000000000; console := [] |}.

Definition seededWorld : World := initialWorld sampleRandoms 1700000000000.

(** A record of each access level, written by 0xAAA of institution 1. *)
Definition sampleRecord (i : Z) (lvl : AccessLevel) : ProjectData :=
  {| id := i; title := "T"; authors := ["0xAAA"]; uploadDate := 1700000000000;
     ipfsHash := "QmSample"; departmentId := 3; year := 2024;
     description := "D"; accessLevel := lvl; institutionId := Some 1;
     creatorAddress := Some "0xAAA"; aiSummary := None |}.

Definition worldWith (ps : list ProjectData) : World :=
  {| projects := ps; randoms := sampleRandoms; drawn := 0%nat;
     now := 1700000000000; console := [] |}.

(* ===================================================================== *)
(** ** The project service *)
(* ===================================================================== *)

Section ProjectService.

(** [getStudentByWallet] of the student service: the directory lookup, which
    answers [undefined] for a wallet it does not know. *)
Variable getStudentByWallet : string -> option Student.

(** [generateProjectSummary] of the summarizer service, awaited: it answers
    a text, answers nothing, or fails. *)
Variable generateProjectSummary : ProjectData -> Settled (option string).

(** [x.toString(16)] for a number [x] of [0, 1). *)
Variable Number_toString16 : Q -> string.

Definition characters : string :=
  "ABCDEFGHIJKLMNOPQRSTUVWXYZabcdefghijklmnopqrstuvwxyz0123456789".

(** The body of the loop of [generateMockIpfsHash], run [n] times on the
    text built so far. *)
Fixpoint appendRandomCharacters (n : nat) (result : string) : M string :=
  match n with
  | O => ret result
  | S n' =>
      x <- Math_random ;;
      let i := Math_floor (x * inject_Z (Z.of_nat (String.length characters))) in
      appendRandomCharacters n' (result ++ charAt characters i)
  end.

Definition generateMockIpfsHash : M string :=
  let prefix := "Qm" in
  appendRandomCharacters 44 prefix.

(** [`0x${Math.random().toString(16).substring(2, 42)}`] *)
Definition mockAuthor : M string :=
  x <- Math_random ;;
  ret ("0x" ++ substring 2 40 (Number_toString16 x)).

(** [Math.max(...ids, 0)] *)
Definition Math_max0 (ids : list Z) : Z := fold_right Z.max 0 ids.

Definition createProject (title description : string) (departmentId year : Z)
  (accessLevel : AccessLevel) (ipfsHashArg authorAddressArg : option string)
  : M ProjectData :=
  let ipfsHash := orDefault ipfsHashArg "" in
  let authorAddress := orDefault authorAddressArg "" in
  stored <- Store_getProjects ;;
  let maxId := Math_max0 (map id stored) in
  let newId := Number_add maxId 1 in
  hash <- (if truthy ipfsHash then ret ipfsHash else generateMockIpfsHash) ;;
  author <- (if truthy authorAddress then ret authorAddress else mockAuthor) ;;
  let student := getStudentByWallet author in
  let studentDepartmentId :=
    match student with
    | Some s => studentDepartmentId s
    | None => departmentId
    end in
  let institutionId :=
    match student with
    | Some s => studentInstitutionId s
    | None => 1
    end in
  uploadDate <- Date_now ;;
  ret {| id := newId; title := title; authors := [author];
         uploadDate := uploadDate; ipfsHash := hash;
         departmentId := studentDepartmentId; year := year;
         description := description; accessLevel := accessLevel;
         institutionId := Some institutionId;
         creatorAddress := Some author; aiSummary := None |}.

(** The [try] block of [addProject]: the record as it leaves the block. *)
Definition summarize (project : ProjectData) : M ProjectData :=
  if negb (truthyOpt (aiSummary project)) then
    match generateProjectSummary project with
    | Fulfilled summary =>
        if truthyOpt summary
        then ret (set_aiSummary project (orDefault summary ""))
        else ret project
    | Rejected error =>
        console_error "Error generating AI summary:" error ;;
        ret project
    end
  else ret project.

Definition addProject (project : ProjectData) : M (Settled unit) :=
  project' <- summarize project ;;
  Store_addProject project' ;;
  ret (Fulfilled tt).

(** [userAddress ? getStudentByWallet(userAddress) : null] *)
Definition studentOf (userAddress : option string) : option Student :=
  match userAddress with
  | Some a => if truthy a then getStudentByWallet a else None
  | None => None
  end.

(** [project.institutionId === student.institutionId] *)
Definition sameInstitution (project : ProjectData) (s : Student) : bool :=
  match institutionId project with
  | Some i => i =? studentInstitutionId s
  | None => false
  end.

(** The third test of both read paths:
    [project.accessLevel === AccessLevel.Institution && student &&
     project.institutionId === student.institutionId]. *)
Definition institutionRule (project : ProjectData) (student : option Student)
  : bool :=
  strictEqLevel (accessLevel project) (AccessLevel_dot "Institution")
  && match student with
     | Some s => sameInstitution project s
     | None => false
     end.

(** The callback of the second [filter] of [getAllProjects]. *)
Definition visibleTo (userAddress : string) (student : option Student)
  (project : ProjectData) : bool :=
  if strictEqLevel (accessLevel project) (AccessLevel_dot "Public") then true
  else if includes (authors project) userAddress then true
  else if institutionRule project student then true
  else false.

Definition getAllProjects (userAddress : option string)
  : M (list ProjectData) :=
  stored <- Store_getProjects ;;
  let student := studentOf userAddress in
  match userAddress with
  | Some a =>
      if negb (truthy a)
      then ret (filter (fun project =>
                  strictEqLevel (accessLevel project) (AccessLevel_dot "Public"))
                  stored)
      else ret (filter (visibleTo a student) stored)
  | None =>
      ret (filter (fun project =>
             strictEqLevel (accessLevel project) (AccessLevel_dot "Public"))
             stored)
  end.

Definition getAllProjectsAdmin : M (list ProjectData) :=
  Store_getProjects.

(** The condition of the [if] of [getProjectById]. *)
Definition accessGranted (userAddress : option string)
  (student : option Student) (project : ProjectData) : bool :=
  strictEqLevel (accessLevel project) (AccessLevel_dot "Public")
  || match userAddress with
     | Some a => truthy a && includes (authors project) a
     | None => false
     end
  || institutionRule project student.

Definition getProjectById (wanted : Z) (userAddress : option string)
  : M (option ProjectData) :=
  stored <- Store_getProjects ;;
  let found := find (fun project => id project =? wanted) stored in
  let student := studentOf userAddress in
  match found with
  | None => ret None
  | Some project =>
      if accessGranted userAddress student project then ret (Some project)
      else ret None
  end.

Definition updateProject (updatedProject : ProjectData) : M unit :=
  stored <- Store_getProjects ;;
  let updatedProjects :=
    map (fun project =>
           if id project =? id updatedProject then updatedProject else project)
        stored in
  setProjects updatedProjects.


(** *** Clients of the service *)

(** The arguments of one call of [createProject]. *)
Record Request : Type := mkRequest {
  reqTitle : string;
  reqDescription : string;
  reqDepartmentId : Z;
  reqYear : Z;
  reqAccessLevel : AccessLevel;
  reqIpfsHash : option string;
  reqAuthorAddress : option string
}.

Definition createRequested (q : Request) : M ProjectData :=
  createProject (reqTitle q) (reqDescription q) (reqDepartmentId q)
    (reqYear q) (reqAccessLevel q) (reqIpfsHash q) (reqAuthorAddress q).

(** A client that creates a record and adds it at once. *)
Definition createThenAdd (q : Request) : M ProjectData :=
  r <- createRequested q ;;
  _ <- addProject r ;;
  ret r.

(** Creations served one after the other. *)
Fixpoint createThenAddAll (qs : list Request) : M (list ProjectData) :=
  match qs with
  | [] => ret []
  | q :: rest =>
      r <- createThenAdd q ;;
      rs <- createThenAddAll rest ;;
      ret (r :: rs)
  end.

(** Two creations that overlap: each client has called [createProject]
    before either reaches the insertion of [addProject], which waits for
    the summarizer. *)
Definition twoOverlapping (q1 q2 : Request) : M (ProjectData * ProjectData) :=
  r1 <- createRequested q1 ;;
  r2 <- createRequested q2 ;;
  _ <- addProject r1 ;;
  _ <- addProject r2 ;;
  ret (r1, r2).

(* ===================================================================== *)
(** ** Basic facts *)
(* ===================================================================== *)

Lemma truthy_true (s : string) : truthy s = true <-> s <> "".
Proof.
  destruct s; simpl; split; intros H; congruence.
Qed.

Lemma includes_In (arr : list string) (x : string) :
  includes arr x = true <-> In x arr.
Proof.
  unfold includes. rewrite existsb_exists. split.
  - intros [y [Hy Heq]]. apply String.eqb_eq in Heq. now subst.
  - intros H. exists x. split; [assumption | apply String.eqb_refl].
Qed.

Lemma includes_not_In (arr : list string) (x : string) :
  includes arr x = false <-> ~ In x arr.
Proof.
  rewrite <- includes_In. destruct (includes arr x); split; congruence.
Qed.

Lemma isPublic_iff (l : AccessLevel) :
  strictEqLevel l (AccessLevel_dot "Public") = true <-> l = Public.
Proof. destruct l; simpl; split; congruence. Qed.

(** The enum declares no member named Institution, so the comparison with
    [AccessLevel.Institution] fails for each of the three levels. *)
Lemma isInstitution_never (l : AccessLevel) :
  strictEqLevel l (AccessLevel_dot "Institution") = false.
Proof. reflexivity. Qed.

Lemma institutionRule_never (project : ProjectData) (student : option Student) :
  institutionRule project student = false.
Proof. reflexivity. Qed.

(** The two read paths take the same decision for a viewer that is present. *)
Lemma accessGranted_visibleTo (a : string) (project : ProjectData) :
  truthy a = true ->
  accessGranted (Some a) (studentOf (Some a)) project
  = visibleTo a (studentOf (Some a)) project.
Proof.
  intros Ha. unfold accessGranted, visibleTo. rewrite Ha.
  destruct (strictEqLevel (accessLevel project) (AccessLevel_dot "Public"));
    [reflexivity |].
  destruct (includes (authors project) a); [reflexivity |].
  destruct (institutionRule project (studentOf (Some a))); reflexivity.
Qed.

(** Reading the store does not change the world. *)
Lemma getAllProjects_reads (v : option string) (w : World) :
  execState (getAllProjects v) w = w.
Proof. destruct v as [a |]; [destruct a |]; reflexivity. Qed.

Lemma getProjectById_reads (wanted : Z) (v : option string) (w : World) :
  execState (getProjectById wanted v) w = w.
Proof.
  unfold getProjectById, execState. simpl.
  destruct (find _ (projects w)) as [p |]; [| reflexivity].
  destruct (accessGranted v (studentOf v) p); reflexivity.
Qed.

(** What the list operation returns, by kind of viewer. *)
Lemma getAllProjects_present (a : string) (w : World) :
  truthy a = true ->
  evalState (getAllProjects (Some a)) w
  = filter (visibleTo a (studentOf (Some a))) (projects w).
Proof. intros Ha. unfold getAllProjects, evalState. simpl. rewrite Ha. reflexivity. Qed.

Lemma getAllProjects_absent (v : option string) (w : World) :
  truthyOpt v = false ->
  evalState (getAllProjects v) w
  = filter (fun project =>
              strictEqLevel (accessLevel project) (AccessLevel_dot "Public"))
           (projects w).
Proof.
  intros Hv. destruct v as [a |]; [| reflexivity].
  simpl in Hv. unfold getAllProjects, evalState. simpl. rewrite Hv. reflexivity.
Qed.

(** What the fetch returns once the lookup has designated a record. *)
Lemma getProjectById_designated (r : ProjectData) (v : option string) (w : World) :
  designated (projects w) r ->
  evalState (getProjectById (id r) v) w
  = if accessGranted v (studentOf v) r then Some r else None.
Proof.
  unfold designated. intros Hf. unfold getProjectById, evalState. simpl.
  rewrite Hf. destruct (accessGranted v (studentOf v) r); reflexivity.
Qed.

(** Where identifiers are unique, each stored record is the one its
    identifier designates. *)
Lemma unique_designated (ps : list ProjectData) (r : ProjectData) :
  NoDup (map id ps) -> In r ps -> designated ps r.
Proof.
  unfold designated. induction ps as [| p ps IH]; simpl; intros Hnd Hin.
  - contradiction.
  - inversion Hnd as [| x xs Hnotin Hnd']; subst.
    destruct Hin as [-> | Hin].
    + now rewrite Z.eqb_refl.
    + destruct (Z.eqb_spec (id p) (id r)) as [Heq | Hne].
      * exfalso. apply Hnotin. rewrite Heq. now apply in_map.
      * now apply IH.
Qed.

(* ===================================================================== *)
(** ** Visibility *)
(* ===================================================================== *)

(** C4. A record whose access level is Public is visible to every viewer,
    whatever the identity and the affiliation, and to a caller that gives
    no identity: the list operation keeps it, and the fetch by its
    identifier returns it when it is the record the identifier
    designates. *)
Theorem public_visible_to_everyone
  (w : World) (r : ProjectData) (v : option string) :
  accessLevel r = Public ->
  (In r (projects w) -> In r (evalState (getAllProjects v) w)) /\
  (designated (projects w) r ->
   evalState (getProjectById (id r) v) w = Some r).
Proof.
  intros Hpub.
  assert (Hp : strictEqLevel (accessLevel r) (AccessLevel_dot "Public") = true)
    by now apply isPublic_iff.
  split.
  - intros Hin. destruct (truthyOpt v) eqn:Hv.
    + destruct v as [a |]; [| discriminate]. simpl in Hv.
      rewrite getAllProjects_present by assumption.
      apply filter_In. split; [assumption |].
      unfold visibleTo. now rewrite Hp.
    + rewrite getAllProjects_absent by assumption.
      apply filter_In. now split.
  - intros Hd. rewrite getProjectById_designated by assumption.
    unfold accessGranted. now rewrite Hp.
Qed.

(** C2. A record is visible to each identity listed among its authors,
    whatever its access level and whatever the directory says of that
    identity: the list operation keeps it and the fetch by its identifier
    returns it. An identity is a non-empty string: the empty string is how
    a caller without identity presents itself. *)
Theorem author_always_sees
  (w : World) (r : ProjectData) (a : string) :
  a <> "" ->
  In a (authors r) ->
  (In r (projects w) -> In r (evalState (getAllProjects (Some a)) w)) /\
  (designated (projects w) r ->
   evalState (getProjectById (id r) (Some a)) w = Some r).
Proof.
  intros Ha Hauth. apply truthy_true in Ha. apply includes_In in Hauth.
  assert (Hvis : visibleTo a (studentOf (Some a)) r = true).
  { unfold visibleTo. rewrite Hauth.
    now destruct (strictEqLevel (accessLevel r) (AccessLevel_dot "Public")). }
  split.
  - intros Hin. rewrite getAllProjects_present by assumption.
    apply filter_In. now split.
  - intros Hd. rewrite getProjectById_designated by assumption.
    rewrite accessGranted_visibleTo by assumption. now rewrite Hvis.
Qed.

(** C3. A record whose access level is Private is visible to no viewer
    outside its authors, the caller without identity included, whatever the
    directory says of the viewer: the list operation leaves it out and the
    fetch by its identifier answers that nothing was found. *)
Theorem private_hidden_from_non_authors
  (w : World) (r : ProjectData) (v : option string) :
  accessLevel r = Private ->
  (forall a, v = Some a -> ~ In a (authors r)) ->
  ~ In r (evalState (getAllProjects v) w) /\
  (designated (projects w) r ->
   evalState (getProjectById (id r) v) w = None).
Proof.
  intros Hpriv Hout.
  assert (Hp : strictEqLevel (accessLevel r) (AccessLevel_dot "Public") = false)
    by now rewrite Hpriv.
  split.
  - intros Hin. destruct (truthyOpt v) eqn:Hv.
    + destruct v as [a |]; [| discriminate]. simpl in Hv.
      rewrite getAllProjects_present in Hin by assumption.
      apply filter_In in Hin. destruct Hin as [_ Hvis].
      unfold visibleTo in Hvis. rewrite Hp, institutionRule_never in Hvis.
      destruct (includes (authors r) a) eqn:Hinc; [| discriminate].
      apply includes_In in Hinc. now apply (Hout a).
    + rewrite getAllProjects_absent in Hin by assumption.
      apply filter_In in Hin. destruct Hin as [_ Hvis]. congruence.
  - intros Hd. rewrite getProjectById_designated by assumption.
    unfold accessGranted. rewrite Hp, institutionRule_never. simpl.
    destruct v as [a |]; [| reflexivity].
    assert (Hinc : includes (authors r) a = false)
      by (apply includes_not_In; now apply Hout).
    rewrite Hinc. now rewrite andb_false_r.
Qed.

(** What the read paths decide for a record of the middle level
    (Restricted, the level reserved to the members of an institution): it
    is visible to a viewer exactly when the viewer is one of its authors.
    The institution of the viewer plays no part. *)
Lemma restricted_visible_iff_author
  (w : World) (r : ProjectData) (a : string) :
  a <> "" ->
  accessLevel r = Restricted ->
  designated (projects w) r ->
  (evalState (getProjectById (id r) (Some a)) w = Some r <-> In a (authors r)) /\
  (In r (projects w) ->
   (In r (evalState (getAllProjects (Some a)) w) <-> In a (authors r))).
Proof.
  intros Ha Hres Hd. apply truthy_true in Ha.
  assert (Hdec : visibleTo a (studentOf (Some a)) r = includes (authors r) a).
  { unfold visibleTo. rewrite Hres, institutionRule_never. simpl.
    now destruct (includes (authors r) a). }
  split.
  - rewrite getProjectById_designated by assumption.
    rewrite accessGranted_visibleTo by assumption. rewrite Hdec.
    rewrite <- includes_In.
    destruct (includes (authors r) a); split; congruence.
  - intros Hin. rewrite getAllProjects_present by assumption.
    rewrite filter_In, Hdec, includes_In. tauto.
Qed.

(** The same test written with the name the enum declares for its middle
    member selects the records of that level stamped with the institution
    of the student. *)
Lemma institution_test_with_declared_member (r : ProjectData) (s : Student) :
  strictEqLevel (accessLevel r) (AccessLevel_dot "Restricted")
  && sameInstitution r s = true
  <-> accessLevel r = Restricted /\
      institutionId r = Some (studentInstitutionId s).
Proof.
  unfold sameInstitution. rewrite andb_true_iff.
  destruct (accessLevel r), (institutionId r) as [i |]; simpl;
    try rewrite Z.eqb_eq; split; intros [H1 H2];
    try discriminate; split; congruence.
Qed.

(* ===================================================================== *)
(** ** Writing to the store *)
(* ===================================================================== *)

Lemma map_replace_unknown (u : ProjectData) (ps : list ProjectData) :
  (forall p, In p ps -> id p <> id u) ->
  map (fun project => if id project =? id u then u else project) ps = ps.
Proof.
  induction ps as [| p ps IH]; simpl; intros Hnone; [reflexivity |].
  destruct (Z.eqb_spec (id p) (id u)) as [Heq | _].
  - exfalso. apply (Hnone p); [now left | assumption].
  - f_equal. apply IH. intros q Hq. apply Hnone. now right.
Qed.

(** C6. An update whose identifier matches no stored record changes
    nothing: the call returns normally and the world after it, the
    collection of the store with its records, their order and their number,
    is the world before it. *)
Theorem update_unknown_id_changes_nothing (w : World) (u : ProjectData) :
  (forall p, In p (projects w) -> id p <> id u) ->
  runState (updateProject u) w = (tt, w).
Proof.
  intros Hnone. unfold updateProject. simpl.
  rewrite map_replace_unknown by assumption.
  destruct w; reflexivity.
Qed.

(** What the [try] block hands to the store, case by case. *)
Lemma summarize_sameButSummary (p : ProjectData) (w : World) :
  sameButSummary p (evalState (summarize p) w).
Proof.
  unfold summarize, evalState.
  destruct (truthyOpt (aiSummary p)); simpl;
    [now repeat split |].
  destruct (generateProjectSummary p) as [summary | e]; simpl;
    [| now repeat split].
  destruct (truthyOpt summary); simpl; now repeat split.
Qed.

Lemma summarize_keeps_store (p : ProjectData) (w : World) :
  projects (execState (summarize p) w) = projects w.
Proof.
  unfold summarize, execState.
  destruct (truthyOpt (aiSummary p)); simpl; [reflexivity |].
  destruct (generateProjectSummary p) as [summary | e]; simpl;
    [| reflexivity].
  destruct (truthyOpt summary); reflexivity.
Qed.

Lemma addProject_store (p : ProjectData) (w : World) :
  projects (execState (addProject p) w)
  = evalState (summarize p) w :: projects w.
Proof.
  unfold addProject, execState, evalState. simpl.
  destruct (runState (summarize p) w) as [p' w'] eqn:Hrun. simpl.
  f_equal. change w' with (snd (p', w')). rewrite <- Hrun.
  apply summarize_keeps_store.
Qed.

(** C7. [addProject] always inserts: its promise is fulfilled, never
    rejected, and the store afterwards is the store before with one record
    in front, equal to the record passed in every property but the summary.
    When the record had no summary and the summarizer answered a text, the
    stored record carries that text; when the summarizer failed, answered
    nothing or answered the empty text, or when the record already had a
    summary, the stored record is the record passed, unchanged. *)
Theorem addProject_always_inserts (p : ProjectData) (w : World) :
  exists stored : ProjectData,
    runState (addProject p) w
    = (Fulfilled tt, execState (addProject p) w) /\
    projects (execState (addProject p) w) = stored :: projects w /\
    evalState getAllProjectsAdmin (execState (addProject p) w)
    = stored :: projects w /\
    sameButSummary p stored /\
    (forall s, truthyOpt (aiSummary p) = false ->
               generateProjectSummary p = Fulfilled (Some s) ->
               s <> "" -> aiSummary stored = Some s) /\
    (forall e, truthyOpt (aiSummary p) = false ->
               generateProjectSummary p = Rejected e -> stored = p) /\
    (truthyOpt (aiSummary p) = false ->
     generateProjectSummary p = Fulfilled None \/
     generateProjectSummary p = Fulfilled (Some "") -> stored = p) /\
    (truthyOpt (aiSummary p) = true -> stored = p).
Proof.
  exists (evalState (summarize p) w).
  split; [| split; [| split; [| split]]].
  - unfold addProject, execState. simpl.
    destruct (runState (summarize p) w); reflexivity.
  - apply addProject_store.
  - unfold getAllProjectsAdmin, Store_getProjects, evalState. simpl.
    apply addProject_store.
  - apply summarize_sameButSummary.
  - unfold summarize, evalState. repeat split.
    + intros s Hno Hgen Hs. rewrite Hno, Hgen. simpl.
      apply truthy_true in Hs. now rewrite Hs.
    + intros e Hno Hgen. now rewrite Hno, Hgen.
    + intros Hno [Hgen | Hgen]; now rewrite Hno, Hgen.
    + intros Hyes. now rewrite Hyes.
Qed.

(* ===================================================================== *)
(** ** Creating a record *)
(* ===================================================================== *)

Lemma append_assoc (a b c : string) : (a ++ b) ++ c = a ++ (b ++ c).
Proof. induction a as [| x a IH]; simpl; [reflexivity | now rewrite IH]. Qed.

Lemma append_empty (a : string) : a ++ "" = a.
Proof. induction a as [| x a IH]; simpl; [reflexivity | now rewrite IH]. Qed.

Lemma alphabet_checked :
  forallb (fun n => match String.get n characters with
                    | Some c => alphanumeric c
                    | None => false
                    end) (seq 0 62) = true.
Proof. vm_compute. reflexivity. Qed.

(** Each of the sixty-two positions of [characters] holds a letter or a
    digit. *)
Lemma charAt_characters (i : Z) :
  0 <= i < 62 ->
  exists c, charAt characters i = String c "" /\ alphanumeric c = true.
Proof.
  intros Hi. unfold charAt.
  destruct (Z.ltb_spec i 0) as [Hneg | _]; [lia |].
  pose proof alphabet_checked as Hall. rewrite forallb_forall in Hall.
  specialize (Hall (Z.to_nat i)).
  assert (Hin : In (Z.to_nat i) (seq 0 62)) by (apply in_seq; lia).
  apply Hall in Hin.
  destruct (String.get (Z.to_nat i) characters) as [c |]; [| discriminate].
  now exists c.
Qed.

(** The index drawn for one character lies within [characters]. *)
Lemma drawn_index_in_range (x : Q) :
  (0 <= x)%Q -> (x < 1)%Q ->
  0 <= Math_floor (x * inject_Z (Z.of_nat (String.length characters))) < 62.
Proof.
  intros H0 H1. unfold Math_floor.
  change (Z.of_nat (String.length characters)) with 62.
  split.
  - rewrite <- (Qfloor_Z 0). apply Qfloor_resp_le.
    apply Qmult_le_0_compat; [assumption | discriminate].
  - rewrite Zlt_Qlt.
    apply Qle_lt_trans with (y := (x * inject_Z 62)%Q); [apply Qfloor_le |].
    setoid_replace (inject_Z 62) with (1 * inject_Z 62)%Q at 2 by ring.
    apply Qmult_lt_compat_r; [reflexivity | assumption].
Qed.

Lemma Math_random_run (w : World) :
  runState Math_random w = (randoms w (drawn w), advance 1 w).
Proof. reflexivity. Qed.

Lemma advance_advance (j k : nat) (w : World) :
  advance j (advance k w) = advance (k + j) w.
Proof. unfold advance. simpl. f_equal. lia. Qed.

(** The loop of [generateMockIpfsHash] appends one letter or digit per
    round and draws one number per round. *)
Lemma appendRandomCharacters_run (n : nat) :
  forall (result : string) (w : World),
    (forall k, (0 <= randoms w k)%Q /\ (randoms w k < 1)%Q) ->
    exists s,
      runState (appendRandomCharacters n result) w
      = (result ++ s, advance n w) /\
      String.length s = n /\
      Forall (fun c => alphanumeric c = true) (list_ascii_of_string s).
Proof.
  induction n as [| n IH]; intros result w Hrnd.
  - exists "". split; [| split; [reflexivity | constructor]].
    simpl. rewrite append_empty. destruct w; reflexivity.
  - destruct (Hrnd (drawn w)) as [H0 H1].
    destruct (charAt_characters _ (drawn_index_in_range _ H0 H1)) as [c [Hc Hal]].
    destruct (IH (result ++ String c "") (advance 1 w)) as [s [Hrun [Hlen Hall]]];
      [exact Hrnd |].
    exists (String c s). split; [| split].
    + change (runState (appendRandomCharacters (S n) result) w)
        with (runState
                (appendRandomCharacters n
                   (result ++ charAt characters
                      (Math_floor
                         (randoms w (drawn w)
                          * inject_Z (Z.of_nat (String.length characters))))))
                (advance 1 w)).
      rewrite Hc, Hrun, append_assoc, advance_advance. reflexivity.
    + simpl. now rewrite Hlen.
    + simpl. now constructor.
Qed.

(** The loop draws one number per round whatever the numbers are. *)
Lemma appendRandomCharacters_world (n : nat) :
  forall (result : string) (w : World),
    execState (appendRandomCharacters n result) w = advance n w.
Proof.
  induction n as [| n IH]; intros result w.
  - destruct w; reflexivity.
  - change (execState (appendRandomCharacters (S n) result) w)
      with (execState
              (appendRandomCharacters n
                 (result ++ charAt characters
                    (Math_floor
                       (randoms w (drawn w)
                        * inject_Z (Z.of_nat (String.length characters))))))
              (advance 1 w)).
    rewrite IH, advance_advance. reflexivity.
Qed.

Lemma generateMockIpfsHash_world (w : World) :
  execState generateMockIpfsHash w = advance 44 w.
Proof. apply appendRandomCharacters_world. Qed.

Lemma bind_run {A B : Type} (c : M A) (f : A -> M B) (w : World) :
  runState (bind c f) w = runState (f (fst (runState c w))) (snd (runState c w)).
Proof. simpl. destruct (runState c w). reflexivity. Qed.

Lemma ret_run {A : Type} (x : A) (w : World) : runState (ret x : M A) w = (x, w).
Proof. reflexivity. Qed.

Lemma generateMockIpfsHash_run (w : World) :
  runState generateMockIpfsHash w
  = (evalState generateMockIpfsHash w, advance 44 w).
Proof.
  rewrite <- generateMockIpfsHash_world. unfold evalState, execState.
  now destruct (runState generateMockIpfsHash w).
Qed.

Lemma mockAuthor_run (w : World) :
  runState mockAuthor w
  = ("0x" ++ substring 2 40 (Number_toString16 (randoms w (drawn w))),
     advance 1 w).
Proof. reflexivity. Qed.

(** [createProject], step by step: the identifier from the store, the hash,
    the author, the affiliation and the record. The store is read and never
    written; only the count of numbers drawn moves. *)
Lemma createProject_run
  (t d : string) (dep y : Z) (lvl : AccessLevel) (h a : option string)
  (w : World) :
  runState (createProject t d dep y lvl h a) w
  = let hash := if truthy (orDefault h "") then orDefault h ""
                else evalState generateMockIpfsHash w in
    let w1 := if truthy (orDefault h "") then w else advance 44 w in
    let author := if truthy (orDefault a "") then orDefault a ""
                  else "0x" ++ substring 2 40
                                 (Number_toString16 (randoms w (drawn w1))) in
    let w2 := if truthy (orDefault a "") then w1 else advance 1 w1 in
    let student := getStudentByWallet author in
    ({| id := Number_add (Math_max0 (map id (projects w))) 1;
        title := t; authors := [author]; uploadDate := now w;
        ipfsHash := hash;
        departmentId := match student with
                        | Some s => studentDepartmentId s
                        | None => dep
                        end;
        year := y; description := d; accessLevel := lvl;
        institutionId := Some match student with
                              | Some s => studentInstitutionId s
                              | None => 1
                              end;
        creatorAddress := Some author; aiSummary := None |},
     w2).
Proof.
  unfold createProject. rewrite !bind_run.
  change (runState Store_getProjects w) with (projects w, w).
  cbv beta iota zeta delta [fst snd].
  destruct (truthy (orDefault h "")); destruct (truthy (orDefault a ""));
    rewrite ?generateMockIpfsHash_run, ?mockAuthor_run, ?ret_run;
    cbv beta iota zeta delta [fst snd]; reflexivity.
Qed.

Lemma createProject_id
  (t d : string) (dep y : Z) (lvl : AccessLevel) (h a : option string)
  (w : World) :
  id (evalState (createProject t d dep y lvl h a) w)
  = Number_add (Math_max0 (map id (projects w))) 1.
Proof. unfold evalState. rewrite createProject_run. reflexivity. Qed.

(** Up to [Number.MAX_SAFE_INTEGER] adding one is exact. *)
Lemma Number_add_one_safe (m : Z) :
  0 <= m <= MAX_SAFE_INTEGER -> Number_add m 1 = m + 1.
Proof.
  intros Hm. unfold Number_add, roundToDouble. cbv zeta.
  destruct (Z.leb_spec (Z.abs (m + 1)) (MAX_SAFE_INTEGER + 1)) as [_ | Hbig];
    [reflexivity |].
  unfold MAX_SAFE_INTEGER in *. lia.
Qed.

Lemma Math_max0_range (ps : list ProjectData) :
  Forall (fun p => id p <= MAX_SAFE_INTEGER) ps ->
  0 <= Math_max0 (map id ps) <= MAX_SAFE_INTEGER.
Proof.
  unfold Math_max0, MAX_SAFE_INTEGER.
  induction ps as [| p ps IH]; simpl; intros Hall; [lia |].
  inversion Hall as [| q qs Hp Hps]; subst. specialize (IH Hps). lia.
Qed.

(** The identifier assigned on a store of safe integers. *)
Lemma createProject_id_safe
  (t d : string) (dep y : Z) (lvl : AccessLevel) (h a : option string)
  (w : World) :
  Forall (fun p => id p <= MAX_SAFE_INTEGER) (projects w) ->
  id (evalState (createProject t d dep y lvl h a) w)
  = Math_max0 (map id (projects w)) + 1.
Proof.
  intros Hsafe. rewrite createProject_id.
  apply Number_add_one_safe. now apply Math_max0_range.
Qed.

(** The author of a created record is a non-empty string, its only author
    and its creator. *)
Lemma createProject_author
  (t d : string) (dep y : Z) (lvl : AccessLevel) (h a : option string)
  (w : World) :
  exists author,
    truthy author = true /\
    authors (evalState (createProject t d dep y lvl h a) w) = [author] /\
    creatorAddress (evalState (createProject t d dep y lvl h a) w)
    = Some author.
Proof.
  unfold evalState. rewrite createProject_run. cbv zeta. simpl.
  destruct (truthy (orDefault a "")) eqn:Ha.
  - exists (orDefault a ""). now repeat split.
  - eexists. split; [| split; reflexivity]. reflexivity.
Qed.

(** [Math.max(...ids, 0)] against the largest identifier present. *)
Lemma Math_max0_maxIdPresent (ps : list ProjectData) :
  Math_max0 (map id ps)
  = match maxIdPresent ps with
    | Some m => Z.max m 0
    | None => 0
    end.
Proof.
  unfold Math_max0. induction ps as [| p ps IH]; simpl; [reflexivity |].
  rewrite IH. destruct (maxIdPresent ps) as [m |]; lia.
Qed.

Lemma maxIdPresent_nonneg (ps : list ProjectData) (m : Z) :
  Forall (fun p => 0 <= id p) ps -> maxIdPresent ps = Some m -> 0 <= m.
Proof.
  revert m. induction ps as [| p ps IH]; simpl; intros m Hall Hm;
    [discriminate |].
  inversion Hall as [| q qs Hp Hps]; subst.
  destruct (maxIdPresent ps) as [m' |]; inversion Hm; subst; [| assumption].
  specialize (IH m' Hps eq_refl). lia.
Qed.

(** C5. [createProject] gives the new record the identifier that follows
    the largest one present in the store, and 1 when the store is empty
    (identifiers are never negative and are safe integers, at most
    [Number.MAX_SAFE_INTEGER], so that adding one is exact). On an empty
    store
    [createProject("T", "D", 1, 2024, Public)], called without hash and
    without author, returns a record with identifier 1, access level Public
    and exactly one author, the fabricated identity, which is also its
    creator. *)
Theorem createProject_assigns_next_id
  (t d : string) (dep y : Z) (lvl : AccessLevel) (h a : option string)
  (w : World) :
  Forall (fun p => 0 <= id p) (projects w) ->
  Forall (fun p => id p <= MAX_SAFE_INTEGER) (projects w) ->
  id (evalState (createProject t d dep y lvl h a) w)
  = match maxIdPresent (projects w) with
    | Some m => m + 1
    | None => 1
    end /\
  (projects w = [] ->
   let r := evalState (createProject "T" "D" 1 2024 Public None None) w in
   let fabricated :=
     "0x" ++ substring 2 40 (Number_toString16 (randoms w (44 + drawn w))) in
   id r = 1 /\ authors r = [fabricated] /\ creatorAddress r = Some fabricated /\
   accessLevel r = Public).
Proof.
  intros Hall Hsafe. split.
  - rewrite createProject_id_safe by assumption.
    rewrite Math_max0_maxIdPresent.
    destruct (maxIdPresent (projects w)) as [m |] eqn:Hm; [| reflexivity].
    pose proof (maxIdPresent_nonneg _ _ Hall Hm). lia.
  - intros Hempty. cbv zeta. unfold evalState. rewrite createProject_run.
    rewrite Hempty. simpl. repeat split.
Qed.

(** C10. [createProject] takes an empty string for an absent argument.
    Called with the empty string as hash it behaves as when called without
    hash, and the hash of the record is Qm followed by forty-four
    characters, each a letter or a digit (the numbers drawn lie in [0, 1),
    as [Math.random] promises). Called with the empty string as author it
    behaves as when called without author: an identity is fabricated, 0x
    followed by the digits of a number drawn at random, and it is the only
    author of the record and its creator. *)
Theorem createProject_empty_string_as_absent
  (t d : string) (dep y : Z) (lvl : AccessLevel) (w : World) :
  (forall k, (0 <= randoms w k)%Q /\ (randoms w k < 1)%Q) ->
  (forall a, runState (createProject t d dep y lvl (Some "") a) w
             = runState (createProject t d dep y lvl None a) w) /\
  (forall h, runState (createProject t d dep y lvl h (Some "")) w
             = runState (createProject t d dep y lvl h None) w) /\
  (forall a, exists s,
      ipfsHash (evalState (createProject t d dep y lvl (Some "") a) w)
      = "Qm" ++ s /\
      String.length s = 44%nat /\
      Forall (fun c => alphanumeric c = true) (list_ascii_of_string s)) /\
  (forall h,
      let r := evalState (createProject t d dep y lvl h (Some "")) w in
      let before := if truthy (orDefault h "") then 0%nat else 44%nat in
      let fabricated :=
        "0x" ++ substring 2 40
                  (Number_toString16 (randoms w (before + drawn w))) in
      authors r = [fabricated] /\ creatorAddress r = Some fabricated).
Proof.
  intros Hrnd. split; [| split; [| split]].
  - intros a. reflexivity.
  - intros h. reflexivity.
  - intros a. unfold evalState. rewrite createProject_run. cbv zeta. simpl.
    destruct (appendRandomCharacters_run 44 "Qm" w Hrnd) as [s [Hrun Hs]].
    exists s. split; [| exact Hs].
    unfold evalState, generateMockIpfsHash. now rewrite Hrun.
  - intros h. cbv zeta. unfold evalState. rewrite createProject_run.
    cbv zeta. simpl.
    destruct (truthy (orDefault h "")); split; reflexivity.
Qed.

(** C8. Round trip: a record made by [createProject] and handed to
    [addProject], whatever the store holds by then and whatever the
    summarizer does, is what the fetch by its identifier returns to its
    creator, up to the summary. *)
Theorem create_add_fetch_roundtrip
  (t d : string) (dep y : Z) (lvl : AccessLevel) (h a : option string)
  (w0 w1 : World) :
  let r := evalState (createProject t d dep y lvl h a) w0 in
  exists fetched,
    evalState (getProjectById (id r) (creatorAddress r))
              (execState (addProject r) w1)
    = Some fetched /\
    sameButSummary r fetched.
Proof.
  intros r.
  destruct (createProject_author t d dep y lvl h a w0)
    as [author [Htruthy [Hauthors Hcreator]]].
  fold r in Hauthors, Hcreator.
  pose proof (summarize_sameButSummary r w1) as Hsame.
  exists (evalState (summarize r) w1). split; [| exact Hsame].
  destruct Hsame as [Hid [_ [Hau _]]].
  assert (Hd : designated (projects (execState (addProject r) w1))
                          (evalState (summarize r) w1)).
  { unfold designated. rewrite addProject_store. simpl.
    now rewrite Z.eqb_refl. }
  rewrite Hid, getProjectById_designated by exact Hd.
  rewrite Hcreator, accessGranted_visibleTo by assumption.
  unfold visibleTo. rewrite <- Hau, Hauthors.
  assert (Hinc : includes [author] author = true)
    by (apply includes_In; now left).
  rewrite Hinc.
  now destruct (strictEqLevel
                  (accessLevel (evalState (summarize r) w1))
                  (AccessLevel_dot "Public")).
Qed.

(* ===================================================================== *)
(** ** Identifiers under several creations *)
(* ===================================================================== *)

Lemma createRequested_store (q : Request) (w : World) :
  projects (execState (createRequested q) w) = projects w.
Proof.
  unfold execState, createRequested. rewrite createProject_run. cbv zeta.
  simpl.
  destruct (truthy (orDefault (reqIpfsHash q) ""));
    destruct (truthy (orDefault (reqAuthorAddress q) "")); reflexivity.
Qed.

Lemma createRequested_id (q : Request) (w : World) :
  id (evalState (createRequested q) w)
  = Number_add (Math_max0 (map id (projects w))) 1.
Proof. apply createProject_id. Qed.

Lemma createRequested_id_safe (q : Request) (w : World) :
  Forall (fun p => id p <= MAX_SAFE_INTEGER) (projects w) ->
  id (evalState (createRequested q) w) = Math_max0 (map id (projects w)) + 1.
Proof. apply createProject_id_safe. Qed.

Lemma addProject_ids (p : ProjectData) (w : World) :
  map id (projects (execState (addProject p) w))
  = id p :: map id (projects w).
Proof.
  rewrite addProject_store. simpl.
  destruct (summarize_sameButSummary p w) as [Hid _]. now rewrite <- Hid.
Qed.

Lemma createThenAdd_run (q : Request) (w : World) :
  runState (createThenAdd q) w
  = (evalState (createRequested q) w,
     execState (addProject (evalState (createRequested q) w))
               (execState (createRequested q) w)).
Proof.
  unfold createThenAdd. rewrite !bind_run, ret_run.
  unfold evalState, execState. reflexivity.
Qed.

Lemma Math_max0_bounds (ids : list Z) :
  0 <= Math_max0 ids /\ Forall (fun i => i <= Math_max0 ids) ids.
Proof.
  unfold Math_max0. induction ids as [| i ids [IH0 IH]]; simpl.
  - split; [lia | constructor].
  - split; [lia |]. constructor; [lia |].
    eapply Forall_impl; [| exact IH]. simpl. intros j Hj. lia.
Qed.

(** Adding one to the largest identifier is exact while that identifier is
    a safe integer. *)
Lemma next_after_high_water (ids : list Z) :
  Math_max0 ids <= MAX_SAFE_INTEGER ->
  Number_add (Math_max0 ids) 1 = Math_max0 ids + 1.
Proof.
  intros Hsafe. apply Number_add_one_safe.
  destruct (Math_max0_bounds ids) as [H0 _]. lia.
Qed.

(** The identifiers of the store after one creation served alone. *)
Lemma createThenAdd_ids (q : Request) (w : World) :
  map id (projects (execState (createThenAdd q) w))
  = Number_add (Math_max0 (map id (projects w))) 1 :: map id (projects w).
Proof.
  unfold execState at 1. rewrite createThenAdd_run. simpl.
  now rewrite addProject_ids, createRequested_store, createRequested_id.
Qed.

Lemma createThenAdd_high_water (q : Request) (w : World) :
  Math_max0 (map id (projects w)) <= MAX_SAFE_INTEGER ->
  Math_max0 (map id (projects (execState (createThenAdd q) w)))
  = Math_max0 (map id (projects w)) + 1.
Proof.
  intros Hsafe. rewrite createThenAdd_ids, next_after_high_water by assumption.
  unfold Math_max0. simpl. lia.
Qed.

(** X21. A creation served alone keeps the identifiers of the store
    unique, provided they are safe integers (at most
    [Number.MAX_SAFE_INTEGER]): the new identifier is then above all of
    them. The store the module starts with and every store reached from it
    by such creations, while the identifiers stay safe, satisfy what the
    theorems on the fetch ask of the store. *)
Lemma createThenAdd_keeps_ids_unique (q : Request) (w : World) :
  Forall (fun p => id p <= MAX_SAFE_INTEGER) (projects w) ->
  NoDup (map id (projects w)) ->
  NoDup (map id (projects (execState (createThenAdd q) w))).
Proof.
  intros Hsafe Hnd. rewrite createThenAdd_ids.
  rewrite next_after_high_water by now apply Math_max0_range.
  constructor; [| assumption].
  intros Hin.
  destruct (Math_max0_bounds (map id (projects w))) as [_ Hall].
  rewrite Forall_forall in Hall. specialize (Hall _ Hin). lia.
Qed.

(** On a store of safe integers a creation served alone also keeps the
    identifiers non-negative. *)
Lemma createThenAdd_keeps_ids_nonnegative (q : Request) (w : World) :
  Forall (fun p => id p <= MAX_SAFE_INTEGER) (projects w) ->
  Forall (fun i => 0 <= i) (map id (projects w)) ->
  Forall (fun i => 0 <= i) (map id (projects (execState (createThenAdd q) w))).
Proof.
  intros Hsafe Hall. rewrite createThenAdd_ids.
  rewrite next_after_high_water by now apply Math_max0_range.
  constructor; [| assumption].
  destruct (Math_max0_bounds (map id (projects w))) as [H0 _]. lia.
Qed.

(** X20. Creations served one after the other receive identifiers that
    grow by one each time, all above every identifier present before the
    first, as long as they stay safe integers (the largest identifier
    present plus the number of creations is at most
    [Number.MAX_SAFE_INTEGER]): they are pairwise distinct. *)
Lemma serialized_ids_increase (qs : list Request) :
  forall w : World,
    Math_max0 (map id (projects w)) + Z.of_nat (length qs)
    <= MAX_SAFE_INTEGER ->
    map id (evalState (createThenAddAll qs) w)
    = map (fun k => Math_max0 (map id (projects w)) + 1 + Z.of_nat k)
          (seq 0 (length qs)).
Proof.
  induction qs as [| q qs IH]; intros w Hsafe; [reflexivity |].
  assert (Hrun : evalState (createThenAddAll (q :: qs)) w
                 = evalState (createRequested q) w
                   :: evalState (createThenAddAll qs)
                        (execState (createThenAdd q) w)).
  { unfold evalState, execState.
    change (createThenAddAll (q :: qs))
      with (r <- createThenAdd q ;;
            rs <- createThenAddAll qs ;;
            ret (r :: rs)).
    rewrite !bind_run, ret_run, createThenAdd_run. reflexivity. }
  assert (Hlen : Z.of_nat (length (q :: qs)) = Z.of_nat (length qs) + 1)
    by (simpl length; lia).
  rewrite Hlen in Hsafe.
  assert (Hw : Math_max0 (map id (projects w)) <= MAX_SAFE_INTEGER) by lia.
  rewrite Hrun. simpl map at 1.
  rewrite IH by (rewrite createThenAdd_high_water by assumption; lia).
  rewrite createThenAdd_high_water, createRequested_id,
    next_after_high_water by assumption.
  change (seq 0 (length (q :: qs))) with (0%nat :: seq 1 (length qs)).
  rewrite <- seq_shift, map_cons, map_map. f_equal; [lia |].
  apply map_ext. intros k. lia.
Qed.

Lemma twoOverlapping_run (q1 q2 : Request) (w : World) :
  runState (twoOverlapping q1 q2) w
  = let r1 := evalState (createRequested q1) w in
    let w1 := execState (createRequested q1) w in
    let r2 := evalState (createRequested q2) w1 in
    let w2 := execState (createRequested q2) w1 in
    ((r1, r2), execState (addProject r2) (execState (addProject r1) w2)).
Proof.
  unfold twoOverlapping. rewrite !bind_run, ret_run. reflexivity.
Qed.

(** C9, what the code does. When two creations overlap, the second
    [createProject] reads the store before the first record is inserted:
    the two records receive the same identifier, and the store ends with two
    more records, both under that identifier. *)
Theorem overlapping_creations_share_id (q1 q2 : Request) (w : World) :
  id (fst (evalState (twoOverlapping q1 q2) w))
  = id (snd (evalState (twoOverlapping q1 q2) w)) /\
  map id (projects (execState (twoOverlapping q1 q2) w))
  = id (snd (evalState (twoOverlapping q1 q2) w))
    :: id (fst (evalState (twoOverlapping q1 q2) w))
    :: map id (projects w).
Proof.
  unfold evalState at 1 2 3 4. unfold execState at 1.
  rewrite twoOverlapping_run. cbv zeta. simpl fst. simpl snd.
  rewrite !addProject_ids, !createRequested_id, !createRequested_store.
  split; reflexivity.
Qed.

(* ===================================================================== *)
(** ** The two read paths together *)
(* ===================================================================== *)

(** The filter of the list operation is the access check of the fetch, for
    every kind of viewer. *)
Lemma getAllProjects_as_filter (v : option string) (w : World) :
  evalState (getAllProjects v) w
  = filter (accessGranted v (studentOf v)) (projects w).
Proof.
  destruct (truthyOpt v) eqn:Hv.
  - destruct v as [a |]; [| discriminate]. simpl in Hv.
    rewrite getAllProjects_present by assumption.
    apply filter_ext. intros p. symmetry.
    now apply accessGranted_visibleTo.
  - rewrite getAllProjects_absent by assumption.
    apply filter_ext. intros p.
    destruct v as [a |]; cbn [truthyOpt] in Hv;
      unfold accessGranted, institutionRule, studentOf; [rewrite Hv |];
      destruct (strictEqLevel (accessLevel p) (AccessLevel_dot "Public"));
      destruct (strictEqLevel (accessLevel p) (AccessLevel_dot "Institution"));
      reflexivity.
Qed.

Lemma filter_within {A : Type} (f g : A -> bool) (l : list A) :
  (forall x, f x = true -> g x = true) ->
  filter f (filter g l) = filter f l.
Proof.
  intros Himp. induction l as [| x l IH]; [reflexivity |].
  cbn [filter]. destruct (g x) eqn:Hg.
  - cbn [filter]. destruct (f x); now rewrite IH.
  - destruct (f x) eqn:Hf; [| exact IH].
    apply Himp in Hf. congruence.
Qed.

Lemma designated_In (ps : list ProjectData) (r : ProjectData) :
  designated ps r -> In r ps.
Proof. unfold designated. intros Hf. now apply find_some in Hf. Qed.

(** X1. What a viewer lists is the administrative listing, in the same
    order, restricted to the records the fetch would hand to that
    viewer. *)
Theorem listing_is_admin_listing_restricted (v : option string) (w : World) :
  evalState (getAllProjects v) w
  = filter (accessGranted v (studentOf v)) (evalState getAllProjectsAdmin w).
Proof. apply getAllProjects_as_filter. Qed.

(** X2. List and fetch agree: a record that is the one its identifier
    designates is returned by the fetch for a viewer exactly when the list
    for that viewer holds it. *)
Theorem list_and_fetch_agree
  (w : World) (r : ProjectData) (v : option string) :
  designated (projects w) r ->
  (evalState (getProjectById (id r) v) w = Some r
   <-> In r (evalState (getAllProjects v) w)).
Proof.
  intros Hd. rewrite getProjectById_designated by assumption.
  rewrite getAllProjects_as_filter, filter_In.
  pose proof (designated_In _ _ Hd) as Hin.
  destruct (accessGranted v (studentOf v) r); split.
  - now split.
  - reflexivity.
  - discriminate.
  - intros [_ Hfalse]. discriminate.
Qed.

(** X3. The fetch never hands out what the list would hide: a record it
    returns carries the identifier asked for, is stored, and is in the list
    of the same viewer. *)
Theorem fetch_returns_only_listed
  (w : World) (wanted : Z) (v : option string) (p : ProjectData) :
  evalState (getProjectById wanted v) w = Some p ->
  id p = wanted /\ In p (projects w) /\
  In p (evalState (getAllProjects v) w).
Proof.
  unfold getProjectById, evalState at 1. simpl.
  destruct (find (fun project => id project =? wanted) (projects w))
    as [q |] eqn:Hf; [| discriminate].
  destruct (accessGranted v (studentOf v) q) eqn:Hg; simpl;
    [| discriminate].
  intros Heq. injection Heq as <-.
  apply find_some in Hf. destruct Hf as [Hin Hid].
  apply Z.eqb_eq in Hid.
  rewrite getAllProjects_as_filter, filter_In. now repeat split.
Qed.

(** X4. A fetch by an identifier no stored record carries finds nothing,
    whoever asks. *)
Theorem fetch_unknown_id_finds_nothing
  (w : World) (wanted : Z) (v : option string) :
  (forall p, In p (projects w) -> id p <> wanted) ->
  evalState (getProjectById wanted v) w = None.
Proof.
  intros Hnone. unfold getProjectById, evalState. simpl.
  destruct (find (fun project => id project =? wanted) (projects w))
    as [q |] eqn:Hf; [| reflexivity].
  apply find_some in Hf. destruct Hf as [Hin Hid].
  apply Z.eqb_eq in Hid. exfalso. now apply (Hnone q).
Qed.

(** X5. What a caller without identity lists is the Public part of what
    any viewer lists: a viewer never sees less than the anonymous caller,
    and the records it sees on top are not Public. *)
Theorem anonymous_listing_is_public_part (v : option string) (w : World) :
  evalState (getAllProjects None) w
  = filter (fun project =>
              strictEqLevel (accessLevel project) (AccessLevel_dot "Public"))
           (evalState (getAllProjects v) w).
Proof.
  rewrite (getAllProjects_absent None) by reflexivity.
  rewrite getAllProjects_as_filter. symmetry. apply filter_within.
  intros p Hp. unfold accessGranted. now rewrite Hp.
Qed.

(* ===================================================================== *)
(** ** Updates *)
(* ===================================================================== *)

Lemma updateProject_store (u : ProjectData) (w : World) :
  projects (execState (updateProject u) w)
  = map (fun project => if id project =? id u then u else project)
        (projects w).
Proof. reflexivity. Qed.

(** X6. An update never changes which identifiers the store holds, nor
    their order, nor their number, whether or not it replaces a record. *)
Theorem update_keeps_identifiers (u : ProjectData) (w : World) :
  map id (projects (execState (updateProject u) w)) = map id (projects w).
Proof.
  rewrite updateProject_store, map_map. apply map_ext. intros p.
  destruct (Z.eqb_spec (id p) (id u)) as [Heq | _]; congruence.
Qed.

(** X7. Update then fetch: once a record with the identifier of [u] is
    stored, the fetch by that identifier after [updateProject u] returns
    [u], to every viewer when [u] is Public and to each of the authors of
    [u] whatever its level. The record that was there is gone. *)
Theorem update_then_fetch (u : ProjectData) (w : World) :
  In (id u) (map id (projects w)) ->
  (accessLevel u = Public ->
   forall v, evalState (getProjectById (id u) v)
                       (execState (updateProject u) w) = Some u) /\
  (forall a, a <> "" -> In a (authors u) ->
             evalState (getProjectById (id u) (Some a))
                       (execState (updateProject u) w) = Some u).
Proof.
  intros Hin.
  assert (Hd : designated (projects (execState (updateProject u) w)) u).
  { unfold designated. rewrite updateProject_store.
    induction (projects w) as [| p ps IH]; simpl in Hin |- *;
      [contradiction |].
    destruct (Z.eqb_spec (id p) (id u)) as [Heq | Hne].
    - now rewrite Z.eqb_refl.
    - destruct (Z.eqb_spec (id p) (id u)) as [Heq | _]; [contradiction |].
      apply IH. destruct Hin as [Heq | Hin]; [contradiction | assumption]. }
  split.
  - intros Hpub v. rewrite getProjectById_designated by exact Hd.
    unfold accessGranted.
    assert (Hp : strictEqLevel (accessLevel u) (AccessLevel_dot "Public") = true)
      by now apply isPublic_iff.
    now rewrite Hp.
  - intros a Ha Hau. rewrite getProjectById_designated by exact Hd.
    apply truthy_true in Ha. apply includes_In in Hau.
    unfold accessGranted. rewrite Ha, Hau.
    now destruct (strictEqLevel (accessLevel u) (AccessLevel_dot "Public")).
Qed.

(** X8. Updating twice with the same record is updating once. *)
Theorem update_twice_is_update_once (u : ProjectData) (w : World) :
  execState (updateProject u) (execState (updateProject u) w)
  = execState (updateProject u) w.
Proof.
  unfold updateProject, execState. simpl. f_equal.
  rewrite map_map. apply map_ext. intros p.
  destruct (Z.eqb_spec (id p) (id u)) as [_ | Hne].
  - now rewrite Z.eqb_refl.
  - destruct (Z.eqb_spec (id p) (id u)); [contradiction | reflexivity].
Qed.

(* ===================================================================== *)
(** ** Creation, before and after the insertion *)
(* ===================================================================== *)

Lemma createProject_world
  (t d : string) (dep y : Z) (lvl : AccessLevel) (h a : option string)
  (w : World) :
  projects (execState (createProject t d dep y lvl h a) w) = projects w /\
  console (execState (createProject t d dep y lvl h a) w) = console w /\
  now (execState (createProject t d dep y lvl h a) w) = now w.
Proof.
  unfold execState. rewrite createProject_run. cbv zeta. simpl.
  destruct (truthy (orDefault h "")); destruct (truthy (orDefault a ""));
    repeat split.
Qed.

(** X9. On a store whose identifiers are safe integers (at most
    [Number.MAX_SAFE_INTEGER]; they may be negative or repeated), the
    identifier [createProject] assigns is at least 1 and above the
    identifier of every stored record. *)
Theorem createProject_id_is_fresh
  (t d : string) (dep y : Z) (lvl : AccessLevel) (h a : option string)
  (w : World) :
  Forall (fun p => id p <= MAX_SAFE_INTEGER) (projects w) ->
  1 <= id (evalState (createProject t d dep y lvl h a) w) /\
  Forall (fun p => id p < id (evalState (createProject t d dep y lvl h a) w))
         (projects w).
Proof.
  intros Hsafe. rewrite createProject_id_safe by assumption.
  destruct (Math_max0_bounds (map id (projects w))) as [H0 Hall].
  split; [lia |].
  rewrite Forall_forall in Hall |- *. intros p Hp.
  specialize (Hall (id p) (in_map id _ _ Hp)). simpl in Hall. lia.
Qed.

(** X10. [createProject] only builds the record: the store and the
    console are as before, for every store; and on a store whose
    identifiers are safe integers (at most [Number.MAX_SAFE_INTEGER]), until
    the record is added a fetch by its identifier finds nothing, whoever
    asks. *)
Theorem created_record_is_not_stored
  (t d : string) (dep y : Z) (lvl : AccessLevel) (h a : option string)
  (w : World) (v : option string) :
  projects (execState (createProject t d dep y lvl h a) w) = projects w /\
  console (execState (createProject t d dep y lvl h a) w) = console w /\
  (Forall (fun p => id p <= MAX_SAFE_INTEGER) (projects w) ->
   evalState (getProjectById
                (id (evalState (createProject t d dep y lvl h a) w)) v)
             (execState (createProject t d dep y lvl h a) w)
   = None).
Proof.
  destruct (createProject_world t d dep y lvl h a w) as [Hps [Hco _]].
  split; [exact Hps |]. split; [exact Hco |]. intros Hsafe.
  unfold getProjectById, evalState at 1. simpl. rewrite Hps.
  destruct (find _ (projects w)) as [q |] eqn:Hf; [| reflexivity].
  apply find_some in Hf. destruct Hf as [Hin Hid]. apply Z.eqb_eq in Hid.
  rewrite createProject_id_safe in Hid by assumption.
  destruct (Math_max0_bounds (map id (projects w))) as [_ Hall].
  rewrite Forall_forall in Hall.
  specialize (Hall (id q) (in_map id _ _ Hin)). simpl in Hall. lia.
Qed.

(** X11. The affiliation of a created record comes from the directory
    when it knows the author: the record carries the department and the
    institution of the student, and the department passed by the caller is
    ignored. When the directory does not know the author, the record
    carries the department passed by the caller and institution 1. *)
Theorem createProject_affiliation
  (t d : string) (dep y : Z) (lvl : AccessLevel) (h a : option string)
  (w : World) :
  exists author,
    creatorAddress (evalState (createProject t d dep y lvl h a) w)
    = Some author /\
    (forall s, getStudentByWallet author = Some s ->
       departmentId (evalState (createProject t d dep y lvl h a) w)
       = studentDepartmentId s /\
       institutionId (evalState (createProject t d dep y lvl h a) w)
       = Some (studentInstitutionId s)) /\
    (getStudentByWallet author = None ->
       departmentId (evalState (createProject t d dep y lvl h a) w) = dep /\
       institutionId (evalState (createProject t d dep y lvl h a) w)
       = Some 1).
Proof.
  unfold evalState. rewrite createProject_run. cbv zeta.
  cbn [fst creatorAddress departmentId institutionId].
  eexists. split; [reflexivity |]. split.
  - intros s Hs. rewrite Hs. now split.
  - intros Hs. rewrite Hs. now split.
Qed.

Lemma createProject_id_bound (q : Request) (w : World) :
  Forall (fun p => id p <= MAX_SAFE_INTEGER) (projects w) ->
  1 <= id (evalState (createRequested q) w) /\
  Forall (fun p => id p < id (evalState (createRequested q) w)) (projects w).
Proof.
  intros Hsafe. rewrite createRequested_id_safe by assumption.
  destruct (Math_max0_bounds (map id (projects w))) as [H0 Hall].
  split; [lia |].
  rewrite Forall_forall in Hall |- *. intros p Hp.
  specialize (Hall (id p) (in_map id _ _ Hp)). simpl in Hall. lia.
Qed.

(** X12. A Private record, once created and added to a store whose
    identifiers are safe integers (at most [Number.MAX_SAFE_INTEGER]), is
    fetched by its creator alone: for every other viewer, the caller
    without identity included, the fetch by its identifier finds nothing
    and the list holds no record with that identifier. *)
Theorem private_creation_is_for_the_creator_alone
  (q : Request) (w : World) (v : option string) :
  Forall (fun p => id p <= MAX_SAFE_INTEGER) (projects w) ->
  reqAccessLevel q = Private ->
  v <> creatorAddress (evalState (createThenAdd q) w) ->
  evalState (getProjectById (id (evalState (createThenAdd q) w)) v)
            (execState (createThenAdd q) w) = None /\
  Forall (fun p => id p <> id (evalState (createThenAdd q) w))
         (evalState (getAllProjects v) (execState (createThenAdd q) w)).
Proof.
  intros Hsafe Hlvl Hv.
  assert (Hr : evalState (createThenAdd q) w = evalState (createRequested q) w)
    by (unfold evalState at 1; now rewrite createThenAdd_run).
  assert (Hw : execState (createThenAdd q) w
               = execState (addProject (evalState (createRequested q) w))
                           (execState (createRequested q) w))
    by (unfold execState at 1; now rewrite createThenAdd_run).
  rewrite Hr in Hv |- *. rewrite Hw. clear Hr Hw.
  set (r := evalState (createRequested q) w) in *.
  set (w1 := execState (createRequested q) w).
  pose proof (summarize_sameButSummary r w1) as Hsame.
  set (stored := evalState (summarize r) w1) in *.
  destruct Hsame as [Hid [_ [Hau [_ [_ [_ [_ [_ [Hal _]]]]]]]]].
  assert (Hps : projects (execState (addProject r) w1) = stored :: projects w)
    by (rewrite addProject_store; unfold w1;
        now rewrite createRequested_store).
  assert (Hlevel : accessLevel stored = Private).
  { rewrite <- Hal. unfold r, evalState, createRequested.
    now rewrite createProject_run. }
  destruct (createProject_author (reqTitle q) (reqDescription q)
              (reqDepartmentId q) (reqYear q) (reqAccessLevel q)
              (reqIpfsHash q) (reqAuthorAddress q) w)
    as [author [_ [Hauthors Hcreator]]].
  fold (createRequested q) in Hauthors, Hcreator. fold r in Hauthors, Hcreator.
  assert (Hout : forall b, v = Some b -> ~ In b (authors stored)).
  { intros b Hb. rewrite <- Hau, Hauthors. intros [Heq | []].
    apply Hv. rewrite Hcreator, Hb. now f_equal. }
  assert (Hdenied : accessGranted v (studentOf v) stored = false).
  { unfold accessGranted. rewrite Hlevel, institutionRule_never. simpl.
    destruct v as [b |]; [| reflexivity].
    assert (Hinc : includes (authors stored) b = false)
      by (apply includes_not_In; now apply Hout).
    rewrite Hinc. now rewrite andb_false_r. }
  assert (Hfresh : forall p, In p (projects w) -> id p <> id r).
  { intros p Hp.
    destruct (createProject_id_bound q w Hsafe) as [_ Hall].
    rewrite Forall_forall in Hall. specialize (Hall p Hp).
    fold r in Hall. lia. }
  split.
  - unfold getProjectById, evalState. simpl. rewrite Hps. simpl.
    rewrite <- Hid, Z.eqb_refl, Hdenied. reflexivity.
  - rewrite getAllProjects_as_filter, Hps. rewrite Forall_forall.
    intros p Hp. apply filter_In in Hp. destruct Hp as [[<- | Hp] Hg].
    + congruence.
    + now apply Hfresh.
Qed.

(* ===================================================================== *)
(** ** Insertions and updates seen through the read paths *)
(* ===================================================================== *)

(** X22. An insertion changes what a viewer lists only at the front: the
    list after [addProject] is the list before, preceded by the stored
    record when the viewer may see it. The stored record is the one its
    identifier designates from then on, even when an older record carries
    the same identifier: the fetch by that identifier answers with the
    stored record or with nothing. *)
Theorem addProject_extends_listings
  (p : ProjectData) (w : World) (v : option string) :
  exists stored,
    sameButSummary p stored /\
    evalState (getAllProjects v) (execState (addProject p) w)
    = ((if accessGranted v (studentOf v) stored then [stored] else [])
       ++ evalState (getAllProjects v) w)%list /\
    evalState (getProjectById (id p) v) (execState (addProject p) w)
    = if accessGranted v (studentOf v) stored then Some stored else None.
Proof.
  exists (evalState (summarize p) w).
  pose proof (summarize_sameButSummary p w) as Hsame.
  split; [exact Hsame |]. destruct Hsame as [Hid _]. split.
  - rewrite !getAllProjects_as_filter, addProject_store. cbn [filter].
    now destruct (accessGranted v (studentOf v) (evalState (summarize p) w)).
  - rewrite Hid. apply getProjectById_designated.
    unfold designated. rewrite addProject_store. cbn [find].
    now rewrite Z.eqb_refl.
Qed.

(** X23. What the store holds after an update: the records that were
    there under another identifier, and the updated record itself when its
    identifier was there. No record is added under a new identifier and no
    record under another identifier is lost. *)
Theorem update_membership (u p : ProjectData) (w : World) :
  In p (projects (execState (updateProject u) w))
  <-> (In p (projects w) /\ id p <> id u) \/
      (p = u /\ In (id u) (map id (projects w))).
Proof.
  rewrite updateProject_store, in_map_iff. split.
  - intros [q [Hq Hin]].
    destruct (Z.eqb_spec (id q) (id u)) as [Heq | Hne].
    + right. split; [now symmetry |]. rewrite <- Heq. now apply in_map.
    + left. subst q. now split.
  - intros [[Hin Hne] | [-> Hin]].
    + exists p. split; [| assumption].
      destruct (Z.eqb_spec (id p) (id u)); [contradiction | reflexivity].
    + apply in_map_iff in Hin. destruct Hin as [q [Hid Hin]].
      exists q. split; [| assumption]. rewrite Hid.
      now rewrite Z.eqb_refl.
Qed.

End ProjectService.

(* ===================================================================== *)
(** ** The institution level *)
(* ===================================================================== *)

(** C1, what the code does. A record of the institution level (the middle
    member of the enum, which the declaration names Restricted), written by
    0xAAA of institution 1 and stamped with institution 1, is hidden from
    0xBBB, whom the directory places in institution 1 as well: the list
    operation leaves it out and the fetch by its identifier finds nothing.
    Both read paths compare the level with [AccessLevel.Institution], a
    member the enum does not declare. *)
Theorem restricted_hidden_from_same_institution :
  let r := sampleRecord 7 Restricted in
  let w := worldWith [r] in
  AccessLevel_dot "Institution" = None /\
  AccessLevel_dot "Restricted" = Some 1 /\
  sampleDirectory "0xBBB" = Some (mkStudent 4 1) /\
  institutionId r = Some 1 /\
  evalState (getAllProjects sampleDirectory (Some "0xBBB")) w = [] /\
  evalState (getProjectById sampleDirectory 7 (Some "0xBBB")) w = None /\
  evalState (getAllProjects sampleDirectory (Some "0xAAA")) w = [r] /\
  evalState (getProjectById sampleDirectory 7 (Some "0xAAA")) w = Some r.
Proof. cbv zeta. repeat split. Qed.

(** The same through the service: 0xAAA creates a record of the middle
    level and adds it to the seeded store; 0xBBB, of the same institution,
    does not get it. *)
Example created_restricted_hidden_from_same_institution :
  let create :=
    createProject sampleDirectory sampleToString16
      "T" "D" 1 2024 Restricted (Some "QmSample") (Some "0xAAA") in
  let r := evalState create seededWorld in
  let w := execState (addProject summarizerOk r) seededWorld in
  id r = 7 /\ institutionId r = Some 1 /\
  evalState (getProjectById sampleDirectory 7 (Some "0xBBB")) w = None /\
  map id (evalState (getAllProjects sampleDirectory (Some "0xBBB")) w)
  = [1; 3; 5].
Proof. cbv zeta. repeat split. Qed.

(* ===================================================================== *)
(** ** The theorems at sample inputs *)
(* ===================================================================== *)

Lemma public_visible_to_everyone_witness :
  let r := sampleRecord 7 Public in
  let w := worldWith [sampleRecord 8 Private; r] in
  accessLevel r = Public /\
  In r (projects w) /\
  designated (projects w) r /\
  In r (evalState (getAllProjects sampleDirectory None) w) /\
  evalState (getProjectById sampleDirectory (id r) None) w = Some r.
Proof.
  cbv zeta.
  assert (Hin : In (sampleRecord 7 Public)
                   (projects (worldWith [sampleRecord 8 Private;
                                         sampleRecord 7 Public])))
    by (right; left; reflexivity).
  assert (Hd : designated
                 (projects (worldWith [sampleRecord 8 Private;
                                       sampleRecord 7 Public]))
                 (sampleRecord 7 Public)) by reflexivity.
  destruct (public_visible_to_everyone sampleDirectory
              (worldWith [sampleRecord 8 Private; sampleRecord 7 Public])
              (sampleRecord 7 Public) None eq_refl) as [Hlist Hfetch].
  split; [reflexivity |].
  split; [exact Hin |].
  split; [exact Hd |].
  split; [exact (Hlist Hin) | exact (Hfetch Hd)].
Defined.

Lemma author_always_sees_witness :
  let r := sampleRecord 7 Private in
  let w := worldWith [sampleRecord 8 Public; r] in
  "0xAAA" <> "" /\
  In "0xAAA" (authors r) /\
  In r (projects w) /\
  designated (projects w) r /\
  In r (evalState (getAllProjects sampleDirectory (Some "0xAAA")) w) /\
  evalState (getProjectById sampleDirectory (id r) (Some "0xAAA")) w = Some r.
Proof.
  cbv zeta.
  assert (Hne : "0xAAA" <> "") by discriminate.
  assert (Hau : In "0xAAA" (authors (sampleRecord 7 Private)))
    by (left; reflexivity).
  assert (Hin : In (sampleRecord 7 Private)
                   (projects (worldWith [sampleRecord 8 Public;
                                         sampleRecord 7 Private])))
    by (right; left; reflexivity).
  assert (Hd : designated
                 (projects (worldWith [sampleRecord 8 Public;
                                       sampleRecord 7 Private]))
                 (sampleRecord 7 Private)) by reflexivity.
  destruct (author_always_sees sampleDirectory
              (worldWith [sampleRecord 8 Public; sampleRecord 7 Private])
              (sampleRecord 7 Private) "0xAAA" Hne Hau) as [Hlist Hfetch].
  split; [exact Hne |].
  split; [exact Hau |].
  split; [exact Hin |].
  split; [exact Hd |].
  split; [exact (Hlist Hin) | exact (Hfetch Hd)].
Defined.

Lemma private_hidden_from_non_authors_witness :
  let r := sampleRecord 7 Private in
  let w := worldWith [sampleRecord 8 Public; r] in
  accessLevel r = Private /\
  (forall a, Some "0xBBB" = Some a -> ~ In a (authors r)) /\
  designated (projects w) r /\
  ~ In r (evalState (getAllProjects sampleDirectory (Some "0xBBB")) w) /\
  evalState (getProjectById sampleDirectory (id r) (Some "0xBBB")) w = None.
Proof.
  cbv zeta.
  assert (Hout : forall a, Some "0xBBB" = Some a ->
                           ~ In a (authors (sampleRecord 7 Private))).
  { intros a Ha [Hin | []]. injection Ha as <-. discriminate Hin. }
  assert (Hd : designated
                 (projects (worldWith [sampleRecord 8 Public;
                                       sampleRecord 7 Private]))
                 (sampleRecord 7 Private)) by reflexivity.
  destruct (private_hidden_from_non_authors sampleDirectory
              (worldWith [sampleRecord 8 Public; sampleRecord 7 Private])
              (sampleRecord 7 Private) (Some "0xBBB") eq_refl Hout)
    as [Hlist Hfetch].
  split; [reflexivity |].
  split; [exact Hout |].
  split; [exact Hd |].
  split; [exact Hlist | exact (Hfetch Hd)].
Defined.

Lemma seeded_ids_unique (rnd : nat -> Q) (loadTime : Z) :
  NoDup (map id (projects (initialWorld rnd loadTime))).
Proof.
  simpl. repeat constructor; simpl; intuition discriminate.
Qed.

Lemma seeded_ids_nonnegative :
  Forall (fun p => 0 <= id p) (projects seededWorld).
Proof. repeat constructor; discriminate. Qed.

Lemma seeded_ids_safe :
  Forall (fun p => id p <= MAX_SAFE_INTEGER) (projects seededWorld).
Proof. repeat constructor; discriminate. Qed.

Lemma createProject_assigns_next_id_witness :
  (Forall (fun p => 0 <= id p) (projects seededWorld) /\
   Forall (fun p => id p <= MAX_SAFE_INTEGER) (projects seededWorld) /\
   id (evalState (createProject sampleDirectory sampleToString16
                    "T" "D" 1 2024 Private None (Some "0xAAA")) seededWorld)
   = 7) /\
  (Forall (fun p => 0 <= id p) (projects emptyWorld) /\
   projects emptyWorld = [] /\
   let r := evalState (createProject sampleDirectory sampleToString16
                         "T" "D" 1 2024 Public None None) emptyWorld in
   id r = 1 /\ authors r = ["0x8f3a2b1c4d5e6"] /\
   creatorAddress r = Some "0x8f3a2b1c4d5e6" /\ accessLevel r = Public).
Proof.
  split.
  - split; [exact seeded_ids_nonnegative |].
    split; [exact seeded_ids_safe |].
    exact (proj1 (createProject_assigns_next_id sampleDirectory
                    sampleToString16 "T" "D" 1 2024 Private None
                    (Some "0xAAA") seededWorld seeded_ids_nonnegative
                    seeded_ids_safe)).
  - split; [constructor |]. split; [reflexivity |].
    exact (proj2 (createProject_assigns_next_id sampleDirectory
                    sampleToString16 "T" "D" 1 2024 Public None None
                    emptyWorld (Forall_nil _) (Forall_nil _)) eq_refl).
Defined.

Lemma seeded_ids_below_99 :
  forall p, In p (projects seededWorld) -> id p <> id (sampleRecord 99 Public).
Proof.
  intros p Hin. simpl in Hin.
  repeat (destruct Hin as [<- | Hin]; [discriminate |]).
  contradiction.
Qed.

Lemma update_unknown_id_changes_nothing_witness :
  (forall p, In p (projects seededWorld) ->
             id p <> id (sampleRecord 99 Public)) /\
  runState (updateProject (sampleRecord 99 Public)) seededWorld
  = (tt, seededWorld).
Proof.
  split; [exact seeded_ids_below_99 |].
  exact (update_unknown_id_changes_nothing seededWorld
           (sampleRecord 99 Public) seeded_ids_below_99).
Defined.

Lemma sampleRandoms_in_range (k : nat) :
  (0 <= sampleRandoms k)%Q /\ (sampleRandoms k < 1)%Q.
Proof.
  unfold sampleRandoms, Qle, Qlt. cbn [Qnum Qden].
  pose proof (Nat.mod_upper_bound k 62). lia.
Qed.

Lemma createProject_empty_string_as_absent_witness :
  (forall k, (0 <= randoms emptyWorld k)%Q /\ (randoms emptyWorld k < 1)%Q) /\
  (exists s,
      ipfsHash (evalState (createProject sampleDirectory sampleToString16
                             "T" "D" 1 2024 Public (Some "") (Some ""))
                          emptyWorld)
      = "Qm" ++ s /\
      String.length s = 44%nat /\
      Forall (fun c => alphanumeric c = true) (list_ascii_of_string s)) /\
  authors (evalState (createProject sampleDirectory sampleToString16
                        "T" "D" 1 2024 Public (Some "") (Some ""))
                     emptyWorld)
  = ["0x8f3a2b1c4d5e6"].
Proof.
  destruct (createProject_empty_string_as_absent sampleDirectory
              sampleToString16 "T" "D" 1 2024 Public emptyWorld
              sampleRandoms_in_range) as [_ [_ [Hhash Hauthor]]].
  split; [exact sampleRandoms_in_range |].
  split; [exact (Hhash (Some "")) |].
  exact (proj1 (Hauthor (Some ""))).
Defined.

(* ===================================================================== *)
(** ** Scenarios *)
(* ===================================================================== *)

(** On an empty store, a Public record created without hash and without
    author and then added is the one record a caller without identity
    lists. *)
Example scenario_first_record :
  let create :=
    createProject sampleDirectory sampleToString16
      "T" "D" 1 2024 Public None None in
  let r := evalState create emptyWorld in
  let w := execState (addProject summarizerSilent r)
                     (execState create emptyWorld) in
  id r = 1 /\ authors r = ["0x8f3a2b1c4d5e6"] /\ accessLevel r = Public /\
  evalState (getAllProjects sampleDirectory None) w = [r].
Proof. cbv zeta. repeat apply conj; vm_compute; reflexivity. Qed.

(** A Private record written by 0xAAA is listed for 0xAAA, and neither for
    0xBBB nor for a caller without identity. *)
Example scenario_private_record :
  let r := sampleRecord 7 Private in
  let w := worldWith [r] in
  evalState (getAllProjects sampleDirectory (Some "0xBBB")) w = [] /\
  evalState (getAllProjects sampleDirectory (Some "0xAAA")) w = [r] /\
  evalState (getAllProjects sampleDirectory None) w = [] /\
  evalState (getAllProjects sampleDirectory (Some "")) w = [].
Proof. cbv zeta. repeat apply conj; vm_compute; reflexivity. Qed.

(** A summarizer that fails leaves one line on the console and the record
    in front of the store, as it was passed. *)
Example scenario_summarizer_down :
  let r := sampleRecord 7 Public in
  let w := execState (addProject summarizerDown r) seededWorld in
  evalState (addProject summarizerDown r) seededWorld = Fulfilled tt /\
  projects w = r :: projects seededWorld /\
  console w = ["Error generating AI summary: 503"].
Proof. cbv zeta. repeat apply conj; vm_compute; reflexivity. Qed.

(** A summarizer that answers puts its text on the stored record. *)
Example scenario_summarizer_ok :
  let r := sampleRecord 7 Public in
  let w := execState (addProject summarizerOk r) seededWorld in
  projects w = set_aiSummary r "A short summary." :: projects seededWorld /\
  console w = [].
Proof. cbv zeta. repeat apply conj; vm_compute; reflexivity. Qed.

(** Two creations that overlap on the seeded store both receive 7; served
    one after the other they receive 7 and 8. *)
Example scenario_two_creations :
  let q1 := mkRequest "T1" "D1" 1 2024 Public (Some "QmOne") (Some "0xAAA") in
  let q2 := mkRequest "T2" "D2" 2 2024 Public (Some "QmTwo") (Some "0xCCC") in
  map id (projects (execState
                      (twoOverlapping sampleDirectory summarizerOk
                         sampleToString16 q1 q2) seededWorld))
  = [7; 7; 1; 2; 3; 4; 5; 6] /\
  map id (evalState
            (createThenAddAll sampleDirectory summarizerOk
               sampleToString16 [q1; q2]) seededWorld)
  = [7; 8].
Proof. cbv zeta. repeat apply conj; vm_compute; reflexivity. Qed.

(* ===================================================================== *)
(** ** The project card *)
(* ===================================================================== *)

Lemma length_append (a b : string) :
  String.length (a ++ b) = (String.length a + String.length b)%nat.
Proof. induction a as [| x a IH]; simpl; [reflexivity | now rewrite IH]. Qed.

Lemma length_substring (n m : nat) (s : string) :
  String.length (substring n m s) = Nat.min m (String.length s - n).
Proof.
  revert n m. induction s as [| c s IH]; intros n m.
  - destruct n, m; reflexivity.
  - destruct n as [| n]; destruct m as [| m]; simpl; try reflexivity.
    + now rewrite IH, Nat.sub_0_r.
    + apply IH.
    + apply IH.
Qed.

Lemma substring_whole (m : nat) (s : string) :
  (String.length s <= m)%nat -> substring 0 m s = s.
Proof.
  revert m. induction s as [| c s IH]; intros m Hm.
  - now destruct m.
  - destruct m as [| m]; simpl in Hm |- *; [lia |].
    f_equal. apply IH. lia.
Qed.

(** X13. The text of a description on the card never exceeds 153
    characters: a description of at most 150 characters is shown as it is,
    a longer one is cut to its first 150 characters followed by three
    dots. *)
Theorem truncatedDescription_bounded (description : string) :
  (String.length (truncatedDescription description) <= 153)%nat /\
  ((String.length description <= 150)%nat ->
   truncatedDescription description = description) /\
  ((150 < String.length description)%nat ->
   truncatedDescription description = substring 0 150 description ++ "..." /\
   String.length (truncatedDescription description) = 153%nat).
Proof.
  unfold truncatedDescription.
  destruct (Nat.ltb_spec 150 (String.length description)) as [Hlong | Hshort].
  - assert (Hlen : String.length (substring 0 150 description ++ "...")
                   = 153%nat).
    { rewrite length_append, length_substring. simpl String.length. lia. }
    split; [lia |]. split; [lia |]. intros _. now split.
  - split; [lia |]. split; [reflexivity |]. lia.
Qed.

Lemma slice_head_length (s : string) :
  String.length (slice s 0 (Some 6)) = Nat.min 6 (String.length s).
Proof.
  unfold slice, sliceIndex. rewrite length_substring.
  change (0 <? 0) with false. change (6 <? 0) with false. cbv iota. lia.
Qed.

Lemma slice_tail_length (s : string) :
  String.length (slice s (-4) None) = Nat.min 4 (String.length s).
Proof.
  unfold slice, sliceIndex. rewrite length_substring.
  change (-4 <? 0) with true. cbv iota. lia.
Qed.

(** X14. A shortened address has the first six characters of the address,
    three dots and its last four characters, thirteen characters in all
    for an address of six characters or more. An address of four characters
    or fewer is printed whole on both sides of the dots. *)
Theorem shortenAddress_shape (address : string) :
  String.length (shortenAddress address)
  = (Nat.min 6 (String.length address) + 3
     + Nat.min 4 (String.length address))%nat /\
  ((6 <= String.length address)%nat ->
   String.length (shortenAddress address) = 13%nat) /\
  ((String.length address <= 4)%nat ->
   shortenAddress address = address ++ "..." ++ address).
Proof.
  assert (Hlen : String.length (shortenAddress address)
                 = (Nat.min 6 (String.length address) + 3
                    + Nat.min 4 (String.length address))%nat).
  { unfold shortenAddress.
    rewrite !length_append, slice_head_length, slice_tail_length.
    simpl String.length. lia. }
  split; [exact Hlen |]. split; [lia |].
  intros Hshort. unfold shortenAddress, slice, sliceIndex.
  change (0 <? 0) with false. change (6 <? 0) with false.
  change (-4 <? 0) with true. cbv iota.
  replace (Z.to_nat (Z.min 0 (Z.of_nat (String.length address)))) with 0%nat
    by lia.
  replace (Z.to_nat (Z.max (Z.of_nat (String.length address) + -4) 0))
    with 0%nat by lia.
  rewrite !substring_whole by lia. reflexivity.
Qed.

(** X15. Whoever the service admits as an author of a record, by exact
    match of the address, the card shows the record as the viewer's own,
    however the platform lowers the case of a string. *)
Theorem service_author_is_card_owner
  (toLowerCase : string -> string) (a : string) (writers : list string) :
  a <> "" ->
  includes writers a = true ->
  isOwnProject toLowerCase (Some a) writers = true.
Proof.
  intros Ha Hinc. apply truthy_true in Ha. apply includes_In in Hinc.
  unfold isOwnProject. rewrite Ha. simpl. apply existsb_exists.
  exists a. split; [assumption | apply String.eqb_refl].
Qed.

(** X16. The card is highlighted exactly when its title carries the mark
    Your Project, and both happen exactly for a record of the viewer's own
    that is not Public. *)
Theorem card_highlight_matches_mark
  (toLowerCase : string -> string) (address : option string)
  (project : ProjectData) :
  yourProjectMark toLowerCase address project
  = negb (String.eqb (cardBorder toLowerCase address project)
                     "border-university-blue/20") /\
  yourProjectMark toLowerCase address project
  = isOwnProject toLowerCase address (authors project)
    && negb (strictEqLevel (accessLevel project) (AccessLevel_dot "Public")).
Proof.
  unfold yourProjectMark, cardBorder.
  destruct (isOwnProject toLowerCase address (authors project));
    destruct (accessLevel project); split; reflexivity.
Qed.

(** The card goes by the letters of an address and the service by its
    exact spelling: an address written in another case is shown its record
    as its own by the card and is refused the record by the service. *)
Example card_owner_refused_by_service :
  let r := sampleRecord 7 Private in
  isOwnProject sampleToLowerCase (Some "0xaaa") (authors r) = true /\
  evalState (getProjectById sampleDirectory 7 (Some "0xaaa")) (worldWith [r])
  = None.
Proof. cbv zeta. split; vm_compute; reflexivity. Qed.

(* ===================================================================== *)
(** ** Reading from the contract *)
(* ===================================================================== *)

Lemma getContractReadOnly_run (ethereum : option Ethereum) (w : World) :
  runState (getContractReadOnly ethereum) w
  = match ethereum with
    | Some eth =>
        match eth_requestAccounts eth with
        | Fulfilled _ => (Fulfilled (deployed eth), w)
        | Rejected error =>
            (Rejected error,
             {| projects := projects w; randoms := randoms w;
                drawn := drawn w; now := now w;
                console := "User denied account access" :: console w |})
        end
    | None =>
        (Rejected
           "Ethereum provider not detected. Please install MetaMask or a compatible wallet.",
         w)
    end.
Proof.
  unfold getContractReadOnly, getProvider.
  destruct ethereum as [eth |]; [| reflexivity].
  destruct (eth_requestAccounts eth); reflexivity.
Qed.

(** X17. [canViewProject] fails closed on the contract and open on the
    wallet. It answers true only when the contract answered true. When the
    call to the contract fails it answers false and leaves one line on the
    console. It is rejected exactly when no wallet is installed or the
    wallet refuses the accounts, since the provider is obtained before the
    guarded block. *)
Theorem canViewProject_outcome
  (ethereum : option Ethereum) (projectId : Z) (address : string)
  (w : World) :
  (evalState (canViewProject ethereum projectId address) w = Fulfilled true
   <-> exists eth u,
         ethereum = Some eth /\ eth_requestAccounts eth = Fulfilled u /\
         contract_canViewProject (deployed eth) projectId address
         = Fulfilled true) /\
  ((exists reason,
       evalState (canViewProject ethereum projectId address) w
       = Rejected reason)
   <-> ethereum = None \/
       exists eth reason,
         ethereum = Some eth /\ eth_requestAccounts eth = Rejected reason) /\
  (forall eth u error,
      ethereum = Some eth -> eth_requestAccounts eth = Fulfilled u ->
      contract_canViewProject (deployed eth) projectId address
      = Rejected error ->
      evalState (canViewProject ethereum projectId address) w
      = Fulfilled false /\
      console (execState (canViewProject ethereum projectId address) w)
      = ("Error checking view access for project "
         ++ showNumber projectId ++ ":" ++ " " ++ error) :: console w).
Proof.
  unfold evalState, execState, canViewProject.
  rewrite bind_run, getContractReadOnly_run.
  destruct ethereum as [eth |].
  - destruct (eth_requestAccounts eth) as [u | reason] eqn:Hreq; cbn [fst snd].
    + destruct (contract_canViewProject (deployed eth) projectId address)
        as [answer | error] eqn:Hcall; cbn.
      * split; [| split].
        -- split.
           ++ intros Heq. exists eth, u. repeat split; congruence.
           ++ intros [eth' [u' [Heth [_ Hans]]]]. injection Heth as <-.
              congruence.
        -- split.
           ++ intros [reason Heq]. discriminate.
           ++ intros [Hnone | [eth' [reason [Heth Hrej]]]]; [discriminate |].
              injection Heth as <-. congruence.
        -- intros eth' u' error Heth _ Hrej. injection Heth as <-. congruence.
      * split; [| split].
        -- split.
           ++ intros Heq. discriminate.
           ++ intros [eth' [u' [Heth [_ Hans]]]]. injection Heth as <-.
              congruence.
        -- split.
           ++ intros [reason Heq]. discriminate.
           ++ intros [Hnone | [eth' [reason [Heth Hrej]]]]; [discriminate |].
              injection Heth as <-. congruence.
        -- intros eth' u' error' Heth _ Hrej. injection Heth as <-.
           rewrite Hcall in Hrej. injection Hrej as <-.
           split; [reflexivity |]. cbn. now rewrite !append_assoc.
    + cbn. split; [| split].
      * split.
        -- intros Heq. discriminate.
        -- intros [eth' [u' [Heth [Hok _]]]]. injection Heth as <-.
           congruence.
      * split.
        -- intros _. right. now exists eth, reason.
        -- intros _. now exists reason.
      * intros eth' u' error Heth Hok _. injection Heth as <-. congruence.
  - cbn. split; [| split].
    + split.
      * intros Heq. discriminate.
      * intros [eth' [u' [Heth _]]]. discriminate.
    + split.
      * intros _. now left.
      * intros _. eexists. reflexivity.
    + intros eth' u' error Heth. discriminate.
Qed.

Lemma collectDepartments_fulfilled (c : Contract) (departmentIds : list Z) :
  forall (departments found : list Department),
    collectDepartments c departmentIds departments = Fulfilled found ->
    exists added,
      found = (departments ++ added)%list /\
      map deptId added = departmentIds /\
      Forall (fun d => contract_getDepartmentName c (deptId d)
                       = Fulfilled (deptName d)) added.
Proof.
  induction departmentIds as [| i rest IH]; intros departments found Hrun.
  - exists []. simpl in Hrun. injection Hrun as <-.
    rewrite app_nil_r. repeat split. constructor.
  - simpl in Hrun.
    destruct (contract_getDepartmentName c i) as [name | error] eqn:Hname;
      [| discriminate].
    destruct (IH _ _ Hrun) as [added [Hfound [Hids Hnames]]].
    exists (mkDepartment i name :: added).
    split; [now rewrite Hfound, <- app_assoc |].
    split; [simpl; now rewrite Hids |].
    constructor; [exact Hname | exact Hnames].
Qed.

Lemma collectDepartments_rejected (c : Contract) (departmentIds : list Z)
  (i : Z) (error : string) :
  In i departmentIds ->
  contract_getDepartmentName c i = Rejected error ->
  forall departments,
    exists reason,
      collectDepartments c departmentIds departments = Rejected reason.
Proof.
  intros Hin Hfail.
  induction departmentIds as [| j rest IH]; intros departments;
    [contradiction |].
  simpl. destruct (contract_getDepartmentName c j) as [name | e] eqn:Hname.
  - destruct Hin as [-> | Hin]; [congruence |]. now apply IH.
  - now exists e.
Qed.

(** X18. When [getDepartments] answers, its answer lists the departments
    of the institution in the order the contract gave their identifiers,
    one entry per identifier, each with the name the contract gave for it,
    and nothing was written to the console. *)
Theorem getDepartments_answer
  (ethereum : option Ethereum) (institutionId : Z) (w : World)
  (found : list Department) :
  evalState (getDepartments ethereum institutionId) w = Fulfilled found ->
  exists eth,
    ethereum = Some eth /\
    contract_getDepartments (deployed eth) institutionId
    = Fulfilled (map deptId found) /\
    Forall (fun d => contract_getDepartmentName (deployed eth) (deptId d)
                     = Fulfilled (deptName d)) found /\
    execState (getDepartments ethereum institutionId) w = w.
Proof.
  unfold evalState, execState, getDepartments.
  rewrite bind_run, getContractReadOnly_run.
  destruct ethereum as [eth |]; [| discriminate].
  destruct (eth_requestAccounts eth) as [u | reason]; cbn [fst snd];
    [| discriminate].
  destruct (contract_getDepartments (deployed eth) institutionId)
    as [departmentIds | error] eqn:Hcall; [| discriminate].
  destruct (collectDepartments (deployed eth) departmentIds [])
    as [departments | error] eqn:Hrun; [| discriminate].
  cbn. intros Heq. injection Heq as <-.
  destruct (collectDepartments_fulfilled _ _ _ _ Hrun)
    as [added [Hfound [Hids Hnames]]].
  simpl in Hfound. subst added. exists eth. rewrite Hids.
  split; [reflexivity |]. split; [exact Hcall |]. split; [exact Hnames |].
  reflexivity.
Qed.

(** X19. [getDepartments] answers all the departments or none: when the
    name of one department of the institution cannot be read, the call is
    rejected, no partial list is returned, and one line is left on the
    console. *)
Theorem getDepartments_all_or_nothing
  (eth : Ethereum) (institutionId : Z) (w : World)
  (departmentIds : list Z) (i : Z) (error : string) :
  contract_getDepartments (deployed eth) institutionId
  = Fulfilled departmentIds ->
  In i departmentIds ->
  contract_getDepartmentName (deployed eth) i = Rejected error ->
  exists reason,
    evalState (getDepartments (Some eth) institutionId) w = Rejected reason /\
    length (console (execState (getDepartments (Some eth) institutionId) w))
    = S (length (console w)).
Proof.
  intros Hids Hin Hfail.
  unfold evalState, execState, getDepartments.
  rewrite bind_run, getContractReadOnly_run.
  destruct (eth_requestAccounts eth) as [u | reason]; cbn [fst snd].
  - rewrite Hids.
    destruct (collectDepartments_rejected _ _ _ _ Hin Hfail [])
      as [reason Hrun].
    rewrite Hrun. cbn. now exists reason.
  - cbn. now exists reason.
Qed.

(* ===================================================================== *)
(** ** The further theorems at sample inputs *)
(* ===================================================================== *)

Lemma list_and_fetch_agree_witness :
  let r := sampleRecord 7 Private in
  let w := worldWith [sampleRecord 8 Public; r] in
  designated (projects w) r /\
  (evalState (getProjectById sampleDirectory (id r) (Some "0xAAA")) w = Some r
   <-> In r (evalState (getAllProjects sampleDirectory (Some "0xAAA")) w)) /\
  (evalState (getProjectById sampleDirectory (id r) (Some "0xBBB")) w = Some r
   <-> In r (evalState (getAllProjects sampleDirectory (Some "0xBBB")) w)).
Proof.
  cbv zeta.
  assert (Hd : designated
                 (projects (worldWith [sampleRecord 8 Public;
                                       sampleRecord 7 Private]))
                 (sampleRecord 7 Private)) by reflexivity.
  split; [exact Hd |]. split.
  - exact (list_and_fetch_agree sampleDirectory _ _ (Some "0xAAA") Hd).
  - exact (list_and_fetch_agree sampleDirectory _ _ (Some "0xBBB") Hd).
Defined.

Lemma fetch_returns_only_listed_witness :
  let r := sampleRecord 7 Private in
  let w := worldWith [sampleRecord 8 Public; r] in
  evalState (getProjectById sampleDirectory 7 (Some "0xAAA")) w = Some r /\
  id r = 7 /\ In r (projects w) /\
  In r (evalState (getAllProjects sampleDirectory (Some "0xAAA")) w).
Proof.
  cbv zeta.
  assert (Hfetch : evalState (getProjectById sampleDirectory 7 (Some "0xAAA"))
                     (worldWith [sampleRecord 8 Public; sampleRecord 7 Private])
                   = Some (sampleRecord 7 Private)) by reflexivity.
  split; [exact Hfetch |].
  exact (fetch_returns_only_listed sampleDirectory _ 7 (Some "0xAAA") _ Hfetch).
Defined.

Lemma seeded_ids_are_not_99 :
  forall p, In p (projects seededWorld) -> id p <> 99.
Proof.
  intros p Hin. simpl in Hin.
  repeat (destruct Hin as [<- | Hin]; [discriminate |]).
  contradiction.
Qed.

Lemma fetch_unknown_id_finds_nothing_witness :
  (forall p, In p (projects seededWorld) -> id p <> 99) /\
  evalState (getProjectById sampleDirectory 99 (Some "0xAAA")) seededWorld
  = None.
Proof.
  split; [exact seeded_ids_are_not_99 |].
  exact (fetch_unknown_id_finds_nothing sampleDirectory seededWorld 99
           (Some "0xAAA") seeded_ids_are_not_99).
Defined.

Lemma update_then_fetch_witness :
  let u := sampleRecord 4 Public in
  In (id u) (map id (projects seededWorld)) /\
  evalState (getProjectById sampleDirectory (id u) None)
            (execState (updateProject u) seededWorld) = Some u /\
  evalState (getProjectById sampleDirectory (id u) (Some "0xAAA"))
            (execState (updateProject (sampleRecord 4 Private)) seededWorld)
  = Some (sampleRecord 4 Private).
Proof.
  cbv zeta.
  assert (Hin : forall lvl, In (id (sampleRecord 4 lvl))
                               (map id (projects seededWorld)))
    by (intros lvl; right; right; right; left; reflexivity).
  split; [exact (Hin Public) |]. split.
  - exact (proj1 (update_then_fetch sampleDirectory (sampleRecord 4 Public)
                    seededWorld (Hin Public)) eq_refl None).
  - refine (proj2 (update_then_fetch sampleDirectory (sampleRecord 4 Private)
                     seededWorld (Hin Private)) "0xAAA" _ _).
    + discriminate.
    + left. reflexivity.
Defined.

Lemma private_creation_is_for_the_creator_alone_witness :
  let q := mkRequest "T" "D" 1 2024 Private (Some "QmOne") (Some "0xAAA") in
  let run := createThenAdd sampleDirectory summarizerOk sampleToString16 q in
  Forall (fun p => id p <= MAX_SAFE_INTEGER) (projects seededWorld) /\
  reqAccessLevel q = Private /\
  Some "0xBBB" <> creatorAddress (evalState run seededWorld) /\
  evalState (getProjectById sampleDirectory (id (evalState run seededWorld))
               (Some "0xBBB"))
            (execState run seededWorld) = None /\
  Forall (fun p => id p <> id (evalState run seededWorld))
         (evalState (getAllProjects sampleDirectory (Some "0xBBB"))
                    (execState run seededWorld)).
Proof.
  cbv zeta.
  assert (Hv : Some "0xBBB"
               <> creatorAddress
                    (evalState
                       (createThenAdd sampleDirectory summarizerOk
                          sampleToString16
                          (mkRequest "T" "D" 1 2024 Private (Some "QmOne")
                             (Some "0xAAA"))) seededWorld))
    by discriminate.
  split; [exact seeded_ids_safe |].
  split; [reflexivity |]. split; [exact Hv |].
  exact (private_creation_is_for_the_creator_alone sampleDirectory
           summarizerOk sampleToString16
           (mkRequest "T" "D" 1 2024 Private (Some "QmOne") (Some "0xAAA"))
           seededWorld (Some "0xBBB") seeded_ids_safe eq_refl Hv).
Defined.

Lemma createThenAdd_keeps_ids_unique_witness :
  let q := mkRequest "T" "D" 1 2024 Public None None in
  Forall (fun p => id p <= MAX_SAFE_INTEGER) (projects seededWorld) /\
  NoDup (map id (projects seededWorld)) /\
  NoDup (map id (projects
                   (execState
                      (createThenAdd sampleDirectory summarizerDown
                         sampleToString16 q) seededWorld))).
Proof.
  cbv zeta.
  split; [exact seeded_ids_safe |].
  split; [exact (seeded_ids_unique sampleRandoms 1700000000000) |].
  exact (createThenAdd_keeps_ids_unique sampleDirectory summarizerDown
           sampleToString16 _ seededWorld seeded_ids_safe
           (seeded_ids_unique sampleRandoms 1700000000000)).
Defined.

Lemma createProject_id_is_fresh_witness :
  let r := evalState (createProject sampleDirectory sampleToString16
                        "T" "D" 1 2024 Private None (Some "0xAAA"))
                     seededWorld in
  Forall (fun p => id p <= MAX_SAFE_INTEGER) (projects seededWorld) /\
  1 <= id r /\
  Forall (fun p => id p < id r) (projects seededWorld).
Proof.
  cbv zeta. split; [exact seeded_ids_safe |].
  exact (createProject_id_is_fresh sampleDirectory sampleToString16
           "T" "D" 1 2024 Private None (Some "0xAAA") seededWorld
           seeded_ids_safe).
Defined.

Lemma created_record_is_not_stored_witness :
  let create := createProject sampleDirectory sampleToString16
                  "T" "D" 1 2024 Public None (Some "0xAAA") in
  Forall (fun p => id p <= MAX_SAFE_INTEGER) (projects seededWorld) /\
  projects (execState create seededWorld) = projects seededWorld /\
  console (execState create seededWorld) = console seededWorld /\
  evalState (getProjectById sampleDirectory
               (id (evalState create seededWorld)) (Some "0xAAA"))
            (execState create seededWorld) = None.
Proof.
  cbv zeta.
  destruct (created_record_is_not_stored sampleDirectory sampleToString16
              "T" "D" 1 2024 Public None (Some "0xAAA") seededWorld
              (Some "0xAAA")) as [Hps [Hco Hfetch]].
  split; [exact seeded_ids_safe |].
  split; [exact Hps |]. split; [exact Hco |].
  exact (Hfetch seeded_ids_safe).
Defined.

Lemma seeded_high_water_safe :
  Math_max0 (map id (projects seededWorld)) + Z.of_nat 2 <= MAX_SAFE_INTEGER.
Proof. vm_compute. discriminate. Qed.

Lemma serialized_ids_increase_witness :
  let q1 := mkRequest "T1" "D1" 1 2024 Public (Some "QmOne") (Some "0xAAA") in
  let q2 := mkRequest "T2" "D2" 2 2024 Private None None in
  Math_max0 (map id (projects seededWorld)) + Z.of_nat (length [q1; q2])
  <= MAX_SAFE_INTEGER /\
  map id (evalState
            (createThenAddAll sampleDirectory summarizerOk sampleToString16
               [q1; q2]) seededWorld)
  = map (fun k => Math_max0 (map id (projects seededWorld)) + 1 + Z.of_nat k)
        (seq 0 (length [q1; q2])).
Proof.
  cbv zeta. split; [exact seeded_high_water_safe |].
  exact (serialized_ids_increase sampleDirectory summarizerOk
           sampleToString16
           [mkRequest "T1" "D1" 1 2024 Public (Some "QmOne") (Some "0xAAA");
            mkRequest "T2" "D2" 2 2024 Private None None]
           seededWorld seeded_high_water_safe).
Defined.

(** Past the safe integers the sum rounds: on a store whose largest
    identifier is 2^53, [createProject] assigns 2^53 again, and a fetch by
    the new identifier finds the record that was there. *)
Example next_id_past_safe_integers :
  let top := sampleRecord 9007199254740992 Public in
  let create := createProject sampleDirectory sampleToString16
                  "T" "D" 1 2024 Private None (Some "0xAAA") in
  Number_add 9007199254740992 1 = 9007199254740992 /\
  id (evalState create (worldWith [top])) = 9007199254740992 /\
  evalState (getProjectById sampleDirectory
               (id (evalState create (worldWith [top]))) None)
            (execState create (worldWith [top])) = Some top.
Proof. cbv zeta. repeat apply conj; vm_compute; reflexivity. Qed.

Lemma service_author_is_card_owner_witness :
  "0xAAA" <> "" /\
  includes (authors (sampleRecord 7 Private)) "0xAAA" = true /\
  isOwnProject sampleToLowerCase (Some "0xAAA")
               (authors (sampleRecord 7 Private)) = true.
Proof.
  assert (Hne : "0xAAA" <> "") by discriminate.
  split; [exact Hne |]. split; [reflexivity |].
  exact (service_author_is_card_owner sampleToLowerCase "0xAAA"
           (authors (sampleRecord 7 Private)) Hne eq_refl).
Defined.

Lemma getDepartments_answer_witness :
  let found := [mkDepartment 10 "Computer Science"; mkDepartment 20 "Physics"] in
  evalState (getDepartments (Some sampleEthereum) 1) emptyWorld
  = Fulfilled found /\
  exists eth,
    Some sampleEthereum = Some eth /\
    contract_getDepartments (deployed eth) 1 = Fulfilled (map deptId found) /\
    Forall (fun d => contract_getDepartmentName (deployed eth) (deptId d)
                     = Fulfilled (deptName d)) found /\
    execState (getDepartments (Some sampleEthereum) 1) emptyWorld = emptyWorld.
Proof.
  cbv zeta. split; [reflexivity |].
  exact (getDepartments_answer (Some sampleEthereum) 1 emptyWorld _ eq_refl).
Defined.

Lemma getDepartments_all_or_nothing_witness :
  contract_getDepartments (deployed sampleEthereum) 2
  = Fulfilled [10; 30; 20] /\
  In 30 [10; 30; 20] /\
  contract_getDepartmentName (deployed sampleEthereum) 30
  = Rejected "unknown department" /\
  exists reason,
    evalState (getDepartments (Some sampleEthereum) 2) emptyWorld
    = Rejected reason /\
    length (console (execState (getDepartments (Some sampleEthereum) 2)
                               emptyWorld))
    = S (length (console emptyWorld)).
Proof.
  assert (Hin : In 30 [10; 30; 20]) by (right; left; reflexivity).
  split; [reflexivity |]. split; [exact Hin |]. split; [reflexivity |].
  exact (getDepartments_all_or_nothing sampleEthereum 2 emptyWorld
           [10; 30; 20] 30 "unknown department" eq_refl Hin eq_refl).
Defined.

(** A wallet that is missing and a contract that fails, seen through
    [canViewProject]. *)
Example canViewProject_samples :
  evalState (canViewProject (Some sampleEthereum) 7 "0xAAA") emptyWorld
  = Fulfilled true /\
  runState (canViewProject (Some sampleEthereum) 4 "0xAAA") emptyWorld
  = (Fulfilled false,
     {| projects := []; randoms := sampleRandoms; drawn := 0%nat;
        now := 1700000000000;
        console :=
          ["Error checking view access for project 4: execution reverted"] |}) /\
  evalState (canViewProject None 7 "0xAAA") emptyWorld
  = Rejected
      "Ethereum provider not detected. Please install MetaMask or a compatible wallet.".
Proof. repeat apply conj; vm_compute; reflexivity. Qed.
